(** * The OAuth gateway, chat proxy and tool-protocol handler of the
      agent extension server, embedded and verified.

    The server is an Express application with five routes.  Each route
    handler is an [async] function that reads the request, possibly awaits
    calls to remote services, and writes one response.  The embedding keeps
    that shape: a handler is a computation in a small monad that threads
    the log of remote calls and may throw, and the remote services are
    oracles gathered in an environment record. *)

From stdpp Require Import gmap strings list fin_maps pretty.

Open Scope string_scope.
Open Scope list_scope.

(** ** JavaScript values

    Everything the handlers touch arrives as parsed JSON (request bodies,
    the token endpoint's answer), as parsed query strings or as parsed
    cookies, so one type of JSON values serves for all of them.
    [undefined] is the [None] of [option json].  Numbers are kept to the
    integers: the handlers only test them for truthiness and print
    them. *)

#[warnings="-register-all"]
Inductive json : Type :=
  | JNull
  | JBool (b : bool)
  | JNum (n : Z)
  | JStr (s : string)
  | JArr (l : list json)
  | JObj (m : gmap string json).

(** An exception value: the kind of error and its message. *)
Inductive exn : Type :=
  | TypeError (msg : string)
  | Error (msg : string)
  | Rejected (msg : string).

(** ToBoolean. *)
Definition truthy (v : option json) : bool :=
  match v with
  | None => false
  | Some JNull => false
  | Some (JBool b) => b
  | Some (JNum n) => negb (n =? 0)%Z
  | Some (JStr s) => negb (String.eqb s "")
  | Some (JArr _) => true
  | Some (JObj _) => true
  end.

(** [a || b] *)
Definition js_or (a b : option json) : option json :=
  if truthy a then a else b.

(** [a ?? b] *)
Definition nullish (a : option json) (b : json) : json :=
  match a with
  | None | Some JNull => b
  | Some v => v
  end.

(** [a === b] for two values that were parsed separately: primitives
    compare by value, arrays and objects by identity, and two separately
    parsed arrays or objects are never the same object. *)
Definition strict_eq (a b : option json) : bool :=
  match a, b with
  | None, None => true
  | Some JNull, Some JNull => true
  | Some (JBool x), Some (JBool y) => Bool.eqb x y
  | Some (JNum x), Some (JNum y) => (x =? y)%Z
  | Some (JStr x), Some (JStr y) => String.eqb x y
  | _, _ => false
  end.

(** [v === 'literal'] *)
Definition is_str (v : option json) (lit : string) : bool :=
  strict_eq v (Some (JStr lit)).

(** Reading an own data property [o.k] of a value that is neither
    [undefined] nor [null].  Arrays and primitives have none of the
    names the handlers read. *)
Definition get_prop (o : json) (k : string) : option json :=
  match o with
  | JObj m => m !! k
  | _ => None
  end.

(** ** Strings

    Strings are held in their UTF-8 encoding, one [ascii] per byte, as
    the string literals of the source file are. *)

Definition byte_is (a : Ascii.ascii) (n : nat) : bool :=
  Nat.eqb (Ascii.nat_of_ascii a) n.

(** The one-byte white space and line terminators of ECMAScript:
    TAB, LF, VT, FF, CR and SP. *)
Definition ws1 (a : Ascii.ascii) : bool :=
  let n := Ascii.nat_of_ascii a in
  (Nat.leb 9 n && Nat.leb n 13) || Nat.eqb n 32.

(** U+00A0, encoded [C2 A0]. *)
Definition ws2 (a b : Ascii.ascii) : bool :=
  byte_is a 194 && byte_is b 160.

(** The three-byte ones: U+1680, U+2000 to U+200A, U+2028, U+2029,
    U+202F, U+205F, U+3000 and U+FEFF. *)
Definition ws3 (a b c : Ascii.ascii) : bool :=
  let z := Ascii.nat_of_ascii c in
  (byte_is a 225 && byte_is b 154 && byte_is c 128)
  || (byte_is a 226 && byte_is b 128
      && ((Nat.leb 128 z && Nat.leb z 138) || Nat.eqb z 168
          || Nat.eqb z 169 || Nat.eqb z 175))
  || (byte_is a 226 && byte_is b 129 && byte_is c 159)
  || (byte_is a 227 && byte_is b 128 && byte_is c 128)
  || (byte_is a 239 && byte_is b 187 && byte_is c 191).

(** [s.trimStart()] *)
Fixpoint trimStart (s : string) : string :=
  match s with
  | String a r1 =>
      if ws1 a then trimStart r1 else
      match r1 with
      | String b r2 =>
          if ws2 a b then trimStart r2 else
          match r2 with
          | String c r3 => if ws3 a b c then trimStart r3 else s
          | EmptyString => s
          end
      | EmptyString => s
      end
  | EmptyString => s
  end.

(** [s.trimEnd()], on the reversed bytes: the encodings are read from
    their last byte. *)
Fixpoint trimEnd_rev (s : string) : string :=
  match s with
  | String c r1 =>
      if ws1 c then trimEnd_rev r1 else
      match r1 with
      | String b r2 =>
          if ws2 b c then trimEnd_rev r2 else
          match r2 with
          | String a r3 => if ws3 a b c then trimEnd_rev r3 else s
          | EmptyString => s
          end
      | EmptyString => s
      end
  | EmptyString => s
  end.

(** [s.trim()] *)
Definition trim (s : string) : string :=
  String.rev (trimEnd_rev (String.rev (trimStart s))).

(** ASCII lower-casing, as Node and Express apply to header names. *)
Definition lower_byte (a : Ascii.ascii) : Ascii.ascii :=
  let n := Ascii.nat_of_ascii a in
  if Nat.leb 65 n && Nat.leb n 90 then Ascii.ascii_of_nat (n + 32) else a.

Fixpoint toLowerCase (s : string) : string :=
  match s with
  | String a r => String (lower_byte a) (toLowerCase r)
  | EmptyString => EmptyString
  end.

(** ToString, as template literals and [v.toString()] apply it.  An
    object parsed from JSON holds no functions, so one that has a
    [toString] property of its own cannot be converted; an array joins
    its elements with commas, [null] giving the empty string. *)
Fixpoint to_string (v : json) : exn + string :=
  match v with
  | JNull => inr "null"
  | JBool true => inr "true"
  | JBool false => inr "false"
  | JNum n => inr (pretty n)
  | JStr s => inr s
  | JArr l =>
      (fix join (l : list json) : exn + string :=
         match l with
         | [] => inr ""
         | x :: r =>
             match (match x with JNull => inr "" | _ => to_string x end) with
             | inl e => inl e
             | inr sx =>
                 match r with
                 | [] => inr sx
                 | _ :: _ =>
                     match join r with
                     | inl e => inl e
                     | inr sr => inr (sx +:+ "," +:+ sr)
                     end
                 end
             end
         end) l
  | JObj m =>
      match m !! "toString" with
      | Some _ => inl (TypeError "Cannot convert object to primitive value")
      | None => inr "[object Object]"
      end
  end.

(** The same for a value that may be [undefined]. *)
Definition template (v : option json) : exn + string :=
  match v with
  | None => inr "undefined"
  | Some j => to_string j
  end.

(** [{ ...o, k: v }] as [JSON.stringify] sends it: a property whose
    value is [undefined] is left out. *)
Definition with_prop (k : string) (v : option json) (o : gmap string json)
    : gmap string json :=
  match v with
  | Some x => <[k := x]> o
  | None => delete k o
  end.

(** An object literal [{ k1: v1, ..., kn: vn }], likewise. *)
Definition object (props : list (string * option json)) : gmap string json :=
  foldl (fun o kv => with_prop kv.1 kv.2 o) ∅ props.

(** The own enumerable properties [{ ...v }] copies, for the values the
    body parser yields: an object gives its properties, an array its
    elements under their indices. *)
Definition spread (v : json) : gmap string json :=
  match v with
  | JObj m => m
  | JArr l => list_to_map (imap (fun i x => (pretty i, x)) l)
  | _ => ∅
  end.

(** [Object.fromEntries(pairs)]: a later pair replaces an earlier one
    of the same name. *)
Definition fromEntries {A} (pairs : list (string * A)) : gmap string A :=
  foldl (fun m kv => <[kv.1 := kv.2]> m) ∅ pairs.

(** ** Requests, responses and remote services *)

Record request : Type := {
  query : gmap string json;       (* req.query *)
  cookies : gmap string json;     (* req.cookies *)
  headers : gmap string string;   (* req.headers, names in lower case *)
  body : json                     (* req.body *)
}.

(** [req.get(name)] *)
Definition req_get (req : request) (name : string) : option string :=
  headers req !! toLowerCase name.

Record url : Type := {
  base : string;
  search : list (string * string)   (* URLSearchParams, before encoding *)
}.

Inductive payload : Type :=
  | Text (s : string)            (* res.send(s) *)
  | Json (m : gmap string json)  (* res.json(obj) *)
  | Redirect (to : url)          (* res.redirect(url) *)
  | Empty                        (* res.end() *)
  | Piped (chunks : list string) (* Readable.from(chunks).pipe(res) *).

Record response : Type := {
  status : nat;
  head : gmap string string;            (* the object given to writeHead *)
  set_cookies : list (string * option json);   (* res.cookie(name, value) *)
  sent : payload
}.

Definition send (code : nat) (text : string) : response :=
  {| status := code; head := ∅; set_cookies := []; sent := Text text |}.

Definition json_reply (m : gmap string json) : response :=
  {| status := 200; head := ∅; set_cookies := []; sent := Json m |}.

(** What [fetch] is given. *)
Inductive fetch_body : Type :=
  | Form (fields : list (string * string))  (* new URLSearchParams({...}) *)
  | Stringified (v : json)                  (* JSON.stringify(v) *).

Record fetch_request : Type := {
  f_url : string;
  f_method : string;
  f_headers : gmap string string;
  f_body : fetch_body
}.

(** What [fetch] resolves to: the status, the header pairs in iteration
    order, the body as the chunks it arrives in, and what [.json()]
    makes of it. *)
Record fetch_response : Type := {
  r_status : nat;
  r_headers : list (string * string);
  r_body : list string;
  r_json : exn + json
}.

(** A call that leaves the process. *)
Inductive call : Type :=
  | Fetch (rq : fetch_request)
  | Octokit (auth : option json) (route : string)
  | Retrieve (q : option json).

(** The remote services.  [retrieveFromYourIndex] is the retrieval
    backend; the sources call it and do not define it. *)
Record services : Type := {
  fetch : fetch_request -> exn + fetch_response;
  octokit_request : option json -> string -> exn + json;   (* resolves to data *)
  retrieveFromYourIndex : option json -> exn + json
}.

Record config : Type := {
  CLIENT_ID : string;
  CLIENT_SECRET : string;
  FQDN : string;
  CONTEXT : string;
  DEFAULT_MODEL : string
}.

(** [loadProjectContext()], from the two environment variables and the
    files that exist. *)
Definition loadProjectContext (PROJECT_CONTEXT PROJECT_CONTEXT_PATH : option string)
    (readFile : string -> option string) : string :=
  let nonempty (o : option string) : option string :=
    s ← o; if String.eqb s "" then None else Some s in
  let quote := String (Ascii.ascii_of_nat 34) "" in
  match nonempty PROJECT_CONTEXT with
  | Some c => c
  | None =>
      default
        ("Project " +:+ quote +:+ "Apollo" +:+ quote +:+ "
• Stack: Go, PostgreSQL, Redis
• Domain: payments processing
• Goal: 99.9% uptime and sub-second latency")
        (nonempty PROJECT_CONTEXT_PATH ≫= readFile)
  end.

(** ** The handler monad

    A handler runs against the log of the calls made so far and either
    returns or throws; an [await]ed call is logged and answered by the
    service. *)

Definition M (A : Type) : Type := list call -> (exn + A) * list call.

Definition ret {A} (a : A) : M A := fun log => (inr a, log).

Definition throw {A} (e : exn) : M A := fun log => (inl e, log).

Definition bind {A B} (m : M A) (k : A -> M B) : M B :=
  fun log =>
    match m log with
    | (inr a, log') => k a log'
    | (inl e, log') => (inl e, log')
    end.

(** [try { m } catch (err) { h err }] *)
Definition try_catch {A} (m : M A) (h : exn -> M A) : M A :=
  fun log =>
    match m log with
    | (inr a, log') => (inr a, log')
    | (inl e, log') => h e log'
    end.

(** A step that may throw and calls nothing. *)
Definition lift {A} (r : exn + A) : M A := fun log => (r, log).

(** [await] of a remote call. *)
Definition await {A} (c : call) (answer : exn + A) : M A :=
  fun log => (answer, log ++ [c]).

Notation "'let!' x ':=' m 'in' k" := (bind m (fun x => k))
  (at level 10, x name, m at level 100, k at level 200,
   format "'[v' 'let!'  x  ':='  m  'in' '/' k ']'").

(** Running a handler from an empty log. *)
Definition run {A} (m : M A) : (exn + A) * list call := m [].

(** ** GET /auth/authorization

    [state] is the string drawn from [Math.random()]. *)
Definition auth_authorization (cfg : config) (state : string) : response :=
  {| status := 302;
     head := ∅;
     set_cookies := [("oauth_state", Some (JStr state))];
     sent := Redirect
       {| base := "https://github.com/login/oauth/authorize";
          search := [("client_id", CLIENT_ID cfg);
                     ("redirect_uri", FQDN cfg +:+ "/auth/callback");
                     ("state", state);
                     ("scope", "repo")] |} |}.

(** ** GET /auth/callback *)

Definition token_request (cfg : config) (code state : string) : fetch_request :=
  {| f_url := "https://github.com/login/oauth/access_token";
     f_method := "POST";
     f_headers := {[ "Accept" := "application/json" ]};
     f_body := Form [("client_id", CLIENT_ID cfg);
                     ("client_secret", CLIENT_SECRET cfg);
                     ("code", code);
                     ("redirect_uri", FQDN cfg +:+ "/auth/callback");
                     ("state", state)] |}.

(** [const { k } = v]: reading a property of [null] throws. *)
Definition prop_of (v : json) (k : string) : exn + option json :=
  match v with
  | JNull => inl (TypeError ("Cannot destructure property '" +:+ k +:+ "' of null"))
  | _ => inr (get_prop v k)
  end.

Definition auth_callback (cfg : config) (svc : services) (req : request)
    : M response :=
  let code := query req !! "code" in
  let state := query req !! "state" in
  let savedState := cookies req !! "oauth_state" in
  if negb (truthy code) || negb (truthy state) || negb (strict_eq state savedState)
  then ret (send 400 "Invalid OAuth state or missing code")
  else
    try_catch
      (let! code_s := lift (template code) in
       let! state_s := lift (template state) in
       let rq := token_request cfg code_s state_s in
       let! tokenRes := await (Fetch rq) (fetch svc rq) in
       let! answer := lift (r_json tokenRes) in
       let! access_token := lift (prop_of answer "access_token") in
       let! error := lift (prop_of answer "error") in
       if truthy error || negb (truthy access_token)
       then
         let! msg := lift (template (js_or error (Some (JStr "No access token")))) in
         throw (Error msg)
       else
         ret {| status := 302;
                head := ∅;
                set_cookies := [("github_token", access_token)];
                sent := Redirect {| base := "/"; search := [] |} |})
      (fun err => ret (send 500 "Authentication failed")).

(** ** POST /agent *)

(** [v?.trim()]: only a string has a [trim] to call. *)
Definition opt_trim (v : option json) : exn + option json :=
  match v with
  | None | Some JNull => inr None
  | Some (JStr s) => inr (Some (JStr (trim s)))
  | Some _ => inl (TypeError "trim is not a function")
  end.

(** [config?.model] *)
Definition opt_prop (v : option json) (k : string) : option json :=
  match v with
  | None | Some JNull => None
  | Some o => get_prop o k
  end.

(** [bodyModel?.trim() || config?.model?.trim() || DEFAULT_MODEL] *)
Definition selectedModel (cfg : config) (bodyModel config : option json)
    : exn + option json :=
  match opt_trim bodyModel with
  | inl e => inl e
  | inr a =>
      if truthy a then inr a else
      match opt_trim (opt_prop config "model") with
      | inl e => inl e
      | inr b =>
          if truthy b then inr b else inr (Some (JStr (DEFAULT_MODEL cfg)))
      end
  end.

Definition system (content : string) : json :=
  JObj (object [("role", Some (JStr "system")); ("content", Some (JStr content))]).

Definition systemPrompts (cfg : config) (login : string) : list json :=
  [ system ("Start every response with: @" +:+ login);
    system "You are an expert assistant specializing in distributed systems and payments processing.";
    system ("Project-specific context:
" +:+ trim (CONTEXT cfg)) ].

Definition completion_request (token : string) (outbound : json) : fetch_request :=
  {| f_url := "https://api.githubcopilot.com/chat/completions";
     f_method := "POST";
     f_headers := {[ "Content-Type" := "application/json";
                     "Authorization" := "Bearer " +:+ token ]};
     f_body := Stringified outbound |}.

(** The object [writeHead] is given:
    [{ 'Content-Type': 'text/event-stream', ...Object.fromEntries(apiRes.headers) }] *)
Definition relayed_head (apiRes : fetch_response) : gmap string string :=
  fromEntries (r_headers apiRes) ∪ {[ "Content-Type" := "text/event-stream" ]}.

(** The block that identifies the user: [Some login] when the identity
    endpoint answered, [None] when the [catch] answered 401. *)
Definition identify (svc : services) (token : option json) : M (option (option json)) :=
  try_catch
    (let! data := await (Octokit token "GET /user")
                        (octokit_request svc token "GET /user") in
     let! login := lift (prop_of data "login") in
     let! _ := lift (template login) in      (* console.log(`User: @${login}`) *)
     ret (Some login))
    (fun err => ret None).

(** [{ ...req.body, model: selectedModel, stream: true,
       messages: [...systemPrompts, ...messages] }] *)
Definition outbound (cfg : config) (client : json) (login : string)
    (model : option json) (messages : list json) : json :=
  JObj (with_prop "messages" (Some (JArr (systemPrompts cfg login ++ messages)))
         (with_prop "stream" (Some (JBool true))
           (with_prop "model" model (spread client)))).

(** The block that calls the completion endpoint and relays its
    answer. *)
Definition proxy (svc : services) (token : option json) (out : json) : M response :=
  try_catch
    (let! bearer := lift (template token) in
     let rq := completion_request bearer out in
     let! apiRes := await (Fetch rq) (fetch svc rq) in
     ret {| status := r_status apiRes;
            head := relayed_head apiRes;
            set_cookies := [];
            sent := Piped (r_body apiRes) |})
    (fun err => ret (send 500 "Internal server error")).

Definition agent (cfg : config) (svc : services) (req : request) : M response :=
  let token := js_or (cookies req !! "github_token")
                     (JStr <$> req_get req "X-GitHub-Token") in
  if negb (truthy token)
  then ret (send 401 "Unauthorized: missing GitHub token. Please authenticate at /auth/authorization")
  else
    let! identified := identify svc token in
    match identified with
    | None => ret (send 401 "Invalid GitHub token")
    | Some login =>
        let! messages := lift (prop_of (body req) "messages") in
        let! bodyModel := lift (prop_of (body req) "model") in
        let! config := lift (prop_of (body req) "config") in
        match messages with
        | Some (JArr msgs) =>
            let! model := lift (selectedModel cfg bodyModel config) in
            let! handle := lift (template login) in
            proxy svc token (outbound cfg (body req) handle model msgs)
        | _ => ret (send 400 "Invalid payload: messages array missing")
        end
    end.

(** ** GET / *)
Definition welcome : response :=
  {| status := 200; head := ∅; set_cookies := [];
     sent := Text "Welcome! To start, authenticate at /auth/authorization" |}.

(** ** POST /query *)

Definition initialize_result : json :=
  JObj (object
    [("protocolVersion", Some (JStr "2025-03-26"));
     ("capabilities", Some (JObj (object
        [("resources", Some (JObj (object [("listChanged", Some (JBool false));
                                           ("subscribe", Some (JBool false))])));
         ("prompts", Some (JObj (object [("listChanged", Some (JBool false))])));
         ("tools", Some (JObj (object [("listChanged", Some (JBool false))])));
         ("logging", Some (JObj ∅))])));
     ("serverInfo", Some (JObj (object [("name", Some (JStr "zeva-mcp-server"));
                                        ("version", Some (JStr "1.0.0"))])))]).

Definition tools_list_result : json :=
  JObj (object
    [("tools", Some (JArr
       [JObj (object
          [("id", Some (JStr "retrieve"));
           ("name", Some (JStr "Context Retrieval"));
           ("description", Some (JStr "Fetch relevant context snippets for the user’s query"));
           ("parameters", Some (JObj (object
              [("type", Some (JStr "object"));
               ("properties", Some (JObj (object
                  [("query", Some (JObj (object
                     [("type", Some (JStr "string"));
                      ("description", Some (JStr "User question to retrieve context for"))])))])));
               ("required", Some (JArr [JStr "query"]))])))])]))]).

(** [params.query] *)
Definition member (o : option json) (k : string) : exn + option json :=
  match o with
  | None =>
      inl (TypeError ("Cannot read properties of undefined (reading '" +:+ k +:+ "')"))
  | Some JNull =>
      inl (TypeError ("Cannot read properties of null (reading '" +:+ k +:+ "')"))
  | Some v => inr (get_prop v k)
  end.

(** The arrow function given to [docs.map], at item [d] of index [i]. *)
Definition document (i : nat) (d : json) : exn + json :=
  match d with
  | JNull => inl (TypeError "Cannot read properties of null (reading 'id')")
  | _ =>
      inr (JObj (object
        [("id", Some (nullish (get_prop d "id") (JStr (pretty i))));
         ("cursor", Some (nullish (get_prop d "cursor") (JStr (pretty i))));
         ("text", get_prop d "text");
         ("metadata", Some (nullish (get_prop d "metadata") (JObj ∅)))]))
  end.

(** [items.map(document)], from index [i] on: the first item that throws
    ends the mapping. *)
Fixpoint map_from (i : nat) (items : list json) : exn + list json :=
  match items with
  | [] => inr []
  | d :: rest =>
      match document i d with
      | inl e => inl e
      | inr doc =>
          match map_from (S i) rest with
          | inl e => inl e
          | inr docs => inr (doc :: docs)
          end
      end
  end.

(** [docs.map((d, i) => ...)]: only an array has a [map] to call. *)
Definition documents (docs : json) : exn + list json :=
  match docs with
  | JArr items => map_from 0 items
  | _ => inl (TypeError "docs.map is not a function")
  end.

Definition rpc (id : option json) (k : string) (v : json) : response :=
  json_reply (object [("jsonrpc", Some (JStr "2.0")); ("id", id); (k, Some v)]).

Definition query_handler (svc : services) (req : request) : M response :=
  let! jsonrpc := lift (prop_of (body req) "jsonrpc") in
  let! id := lift (prop_of (body req) "id") in
  let! method := lift (prop_of (body req) "method") in
  let! params := lift (prop_of (body req) "params") in
  if is_str method "initialize" then
    ret (rpc id "result" initialize_result)
  else if is_str method "notifications/initialized" then
    ret {| status := 204; head := ∅; set_cookies := []; sent := Empty |}
  else if is_str method "tools/list" then
    ret (rpc id "result" tools_list_result)
  else if is_str method "retrieve" then
    let! q := lift (member params "query") in
    let! docs := await (Retrieve q) (retrieveFromYourIndex svc q) in
    let! mapped := lift (documents docs) in
    ret (rpc id "result" (JObj (object [("documents", Some (JArr mapped))])))
  else
    let! name := lift (template method) in
    ret (rpc id "error"
           (JObj (object [("code", Some (JNum (-32601)));
                          ("message", Some (JStr ("Method not found: " +:+ name)))]))).

(** ** The relay of the upstream body

    [Readable.from(apiRes.body).pipe(res)] hands every chunk to the
    caller's connection when it arrives and ends the response when the
    source ends. *)

Record relay : Type := {
  upstream : list string;   (* chunks that have not arrived yet *)
  written : list string;    (* chunks written to the caller *)
  ended : bool              (* res.end() was called *)
}.

Definition pipe (chunks : list string) : relay :=
  {| upstream := chunks; written := []; ended := false |}.

(** One event of the source: a chunk arrives, or the source ends. *)
Definition pipe_step (r : relay) : relay :=
  match upstream r with
  | c :: rest => {| upstream := rest; written := written r ++ [c]; ended := false |}
  | [] => {| upstream := []; written := written r; ended := true |}
  end.

Fixpoint pipe_steps (n : nat) (r : relay) : relay :=
  match n with
  | O => r
  | S k => pipe_steps k (pipe_step r)
  end.

(** ** The caller's cookies between two requests *)

(** How a value given to [res.cookie] reads in [req.cookies] of the next
    request: arrays and objects travel as JSON and are parsed back, the
    rest arrives as a string ([null] as the text [j:null], which the
    cookie parser leaves alone).  (A string that starts with [j:] and
    holds JSON would be parsed too; the handlers write none.) *)
Definition readback (v : option json) : json :=
  match v with
  | None => JStr "undefined"
  | Some JNull => JStr "j:null"
  | Some (JBool true) => JStr "true"
  | Some (JBool false) => JStr "false"
  | Some (JNum n) => JStr (pretty n)
  | Some j => j
  end.

Definition session_after (jar : gmap string json) (r : response)
    : gmap string json :=
  foldl (fun j kv => <[kv.1 := readback kv.2]> j) jar (set_cookies r).

(** The cookies the caller holds once a handler has finished; a handler
    that threw wrote none. *)
Definition session_of (jar : gmap string json) (out : (exn + response) * list call)
    : gmap string json :=
  match out.1 with
  | inr r => session_after jar r
  | inl _ => jar
  end.

(** The status the caller receives, if the handler answered. *)
Definition status_of (out : (exn + response) * list call) : option nat :=
  match out.1 with
  | inr r => Some (status r)
  | inl _ => None
  end.

(** A callback request was accepted when the handler went on to the
    token endpoint. *)
Definition exchanged (out : (exn + response) * list call) : bool :=
  match out.2 with
  | [] => false
  | _ :: _ => true
  end.

(** ** The start of the server module

    The settings are read from [process.env]; a missing or empty
    [CLIENT_ID], [CLIENT_SECRET] or [FQDN] ends the process with
    [process.exit(1)], here [None].  [DEFAULT_MODEL] falls back to
    ['gpt-4'] only when the variable is not set.  ([PORT] only reaches
    [app.listen].) *)
Definition startup (env : gmap string string) (readFile : string -> option string)
    : option config :=
  match env !! "CLIENT_ID", env !! "CLIENT_SECRET", env !! "FQDN" with
  | Some id, Some secret, Some fqdn =>
      if String.eqb id "" || String.eqb secret "" || String.eqb fqdn ""
      then None
      else Some {| CLIENT_ID := id;
                   CLIENT_SECRET := secret;
                   FQDN := fqdn;
                   CONTEXT := loadProjectContext (env !! "PROJECT_CONTEXT")
                                (env !! "PROJECT_CONTEXT_PATH") readFile;
                   DEFAULT_MODEL := default "gpt-4" (env !! "DEFAULT_MODEL") |}
  | _, _, _ => None
  end.

(** ** The first version of the proxy, [index.js]

    One route, [POST /]: the token comes from the header only, the
    outbound request is built from scratch, and the call to the
    completion endpoint stands outside any [try]. *)

Module Index.

Definition systemPrompts (PROJECT_CONTEXT : string) (login : string) : list json :=
  [ system ("Start every response with the user's handle: @" +:+ login +:+ ".");
    system "You are an expert assistant specializing in distributed systems and payments processing.";
    system ("Project-specific context:
" +:+ trim PROJECT_CONTEXT) ].

(** [{ stream: true, messages: [...systemPrompts, ...inbound.messages] }] *)
Definition outbound (PROJECT_CONTEXT : string) (login : string)
    (messages : list json) : json :=
  JObj (object [("stream", Some (JBool true));
                ("messages", Some (JArr (systemPrompts PROJECT_CONTEXT login
                                         ++ messages)))]).

Definition handler (PROJECT_CONTEXT : string) (svc : services) (req : request)
    : M response :=
  let token := JStr <$> req_get req "X-GitHub-Token" in
  if negb (truthy token)
  then ret (send 401 "Missing GitHub token header")
  else
    let! identified := identify svc token in
    match identified with
    | None => ret (send 401 "Invalid GitHub token")
    | Some login =>
        let! handle := lift (template login) in
        let! messages := lift (member (Some (body req)) "messages") in
        match messages with
        | Some (JArr msgs) =>
            let! bearer := lift (template token) in
            let rq := completion_request bearer
                        (outbound PROJECT_CONTEXT handle msgs) in
            let! apiRes := await (Fetch rq) (fetch svc rq) in
            ret {| status := r_status apiRes;
                   head := relayed_head apiRes;
                   set_cookies := [];
                   sent := Piped (r_body apiRes) |}
        | _ => ret (send 400 "Invalid payload: messages array missing")
        end
    end.

End Index.

(** ** Requests that differ in one part *)

Definition with_headers (h : gmap string string) (req : request) : request :=
  {| query := query req; cookies := cookies req; headers := h; body := body req |}.

Definition with_cookies (c : gmap string json) (req : request) : request :=
  {| query := query req; cookies := c; headers := headers req; body := body req |}.

(** ** Sample configuration, services and requests *)

Module Sample.

Definition cfg : config :=
  {| CLIENT_ID := "Iv1.0123456789abcdef";
     CLIENT_SECRET := "s3cr3t";
     FQDN := "https://agent.example.com";
     CONTEXT := loadProjectContext None None (fun _ => None);
     DEFAULT_MODEL := "gpt-4" |}.

Definition sse : fetch_response :=
  {| r_status := 200;
     r_headers := [("x-request-id", "r1")];
     r_body := ["data: {}

"; "data: [DONE]

"];
     r_json := inl (Error "Unexpected token d in JSON") |}.

Definition granted : fetch_response :=
  {| r_status := 200;
     r_headers := [("content-type", "application/json")];
     r_body := [];
     r_json := inr (JObj {[ "access_token" := JStr "gho_16C7e42F292c69";
                            "token_type" := JStr "bearer" ]}) |}.

Definition refused : fetch_response :=
  {| r_status := 200;
     r_headers := [("content-type", "application/json")];
     r_body := [];
     r_json := inr (JObj {[ "error" := JStr "bad_verification_code" ]}) |}.

(** The provider grants every code but ["expired"]; the completion
    endpoint streams two events; the index holds three items. *)
Definition svc : services :=
  {| fetch rq :=
       if String.eqb (f_url rq) "https://github.com/login/oauth/access_token"
       then
         match f_body rq with
         | Form fields =>
             if bool_decide (("code", "expired") ∈ fields)
             then inr refused else inr granted
         | Stringified _ => inr refused
         end
       else inr sse;
     octokit_request auth route := inr (JObj {[ "login" := JStr "octocat" ]});
     retrieveFromYourIndex q :=
       inr (JArr [JObj {[ "id" := JStr "a"; "text" := JStr "first" ]};
                  JObj {[ "cursor" := JStr "c1"; "text" := JStr "second" ]};
                  JObj {[ "text" := JStr "third" ]}]) |}.

Definition get (q c : gmap string json) : request :=
  {| query := q; cookies := c; headers := ∅; body := JObj ∅ |}.

Definition post (c : gmap string json) (h : gmap string string) (b : json)
    : request :=
  {| query := ∅; cookies := c; headers := h; body := b |}.

End Sample.

(** The steps of a handler, unfolded. *)
Ltac steps :=
  unfold run, try_catch, bind, lift, await, ret, throw; simpl.

(** ** Small cases

    The string functions on sample inputs. *)

Example trim_ex : trim "  gpt-4o	
" = "gpt-4o".
Proof. reflexivity. Qed.

Example to_string_ex :
  to_string (JArr [JNum 1; JNull; JStr "a"; JArr [JBool true; JNum (-2)]])
  = inr "1,,a,true,-2".
Proof. vm_compute. reflexivity. Qed.

(** ** The OAuth callback *)

(** C1. A callback request whose [code] is absent, whose [state] is
    absent, or whose [state] is not the one saved in the caller's
    [oauth_state] cookie is answered 400, and the handler makes no call
    at all: the token endpoint is not reached. *)
Theorem callback_rejects_invalid_state (cfg : config) (svc : services) (req : request) :
  query req !! "code" = None
  ∨ query req !! "state" = None
  ∨ strict_eq (query req !! "state") (cookies req !! "oauth_state") = false →
  run (auth_callback cfg svc req)
  = (inr (send 400 "Invalid OAuth state or missing code"), []).
Proof.
  intros H. unfold run, auth_callback.
  destruct H as [-> | [-> | ->]]; simpl.
  - reflexivity.
  - by rewrite orb_true_r.
  - by rewrite !orb_true_r.
Qed.

Lemma callback_rejects_invalid_state_witness :
  let req := Sample.get {[ "code" := JStr "c0de"; "state" := JStr "forged" ]}
                        {[ "oauth_state" := JStr "k3x9q2m7" ]} in
  strict_eq (query req !! "state") (cookies req !! "oauth_state") = false
  ∧ run (auth_callback Sample.cfg Sample.svc req)
    = (inr (send 400 "Invalid OAuth state or missing code"), []).
Proof.
  split; [reflexivity |].
  apply callback_rejects_invalid_state. right; right. reflexivity.
Defined.

(** C9. When the request passes the state check and the provider's
    answer reports an error or carries no access token, the callback
    answers 500 after its one call to the token endpoint, sets no cookie,
    and leaves the caller's cookies as they were. *)
Theorem token_exchange_failure (cfg : config) (svc : services) (req : request)
    (c s : string) (tokenRes : fetch_response) (answer : json) :
  truthy (query req !! "code") = true →
  truthy (query req !! "state") = true →
  strict_eq (query req !! "state") (cookies req !! "oauth_state") = true →
  template (query req !! "code") = inr c →
  template (query req !! "state") = inr s →
  fetch svc (token_request cfg c s) = inr tokenRes →
  r_json tokenRes = inr answer →
  truthy (get_prop answer "error") = true ∨ get_prop answer "access_token" = None →
  run (auth_callback cfg svc req)
  = (inr (send 500 "Authentication failed"), [Fetch (token_request cfg c s)])
  ∧ set_cookies (send 500 "Authentication failed") = []
  ∧ session_of (cookies req) (run (auth_callback cfg svc req)) = cookies req.
Proof.
  intros Hc Hs He Tc Ts Hf Hj Hfail.
  assert (run (auth_callback cfg svc req)
          = (inr (send 500 "Authentication failed"),
             [Fetch (token_request cfg c s)])) as Hrun.
  { unfold auth_callback. rewrite Hc, Hs, He. steps.
    rewrite Tc, Ts, Hf, Hj.
    assert (answer = JNull ∨ ∀ k, prop_of answer k = inr (get_prop answer k))
      as [-> | Hp] by (destruct answer; auto); [reflexivity |].
    rewrite !Hp.
    destruct Hfail as [Herr | Hnone].
    - rewrite Herr. simpl. unfold js_or. rewrite Herr.
      by destruct (template (get_prop answer "error")).
    - rewrite Hnone. simpl. rewrite orb_true_r.
      by destruct (template (js_or (get_prop answer "error")
                                   (Some (JStr "No access token")))). }
  rewrite Hrun. repeat split.
Qed.

Lemma token_exchange_failure_witness :
  let req := Sample.get {[ "code" := JStr "expired"; "state" := JStr "k3x9q2m7" ]}
                        {[ "oauth_state" := JStr "k3x9q2m7" ]} in
  run (auth_callback Sample.cfg Sample.svc req)
  = (inr (send 500 "Authentication failed"),
     [Fetch (token_request Sample.cfg "expired" "k3x9q2m7")])
  ∧ set_cookies (send 500 "Authentication failed") = []
  ∧ session_of (cookies req) (run (auth_callback Sample.cfg Sample.svc req))
    = cookies req.
Proof.
  apply (token_exchange_failure Sample.cfg Sample.svc _ "expired" "k3x9q2m7"
           Sample.refused (JObj {[ "error" := JStr "bad_verification_code" ]}));
    try reflexivity.
  left. reflexivity.
Defined.

(** The three ways the callback ends: 400 before any call, 500 from
    inside its [try], or 302 with the token cookie after the one call to
    the token endpoint.  Nothing it does can throw past its [try]. *)
Lemma auth_callback_cases (cfg : config) (svc : services) (req : request) :
  run (auth_callback cfg svc req)
  = (inr (send 400 "Invalid OAuth state or missing code"), [])
  ∨ (∃ log, run (auth_callback cfg svc req)
            = (inr (send 500 "Authentication failed"), log))
  ∨ (∃ c s tok,
       run (auth_callback cfg svc req)
       = (inr {| status := 302; head := ∅;
                 set_cookies := [("github_token", tok)];
                 sent := Redirect {| base := "/"; search := [] |} |},
          [Fetch (token_request cfg c s)])).
Proof.
  unfold auth_callback.
  destruct (negb _ || negb _ || negb _); [by left |].
  right. steps.
  destruct (template (query req !! "code")) as [? | c]; simpl; [by left; eexists |].
  destruct (template (query req !! "state")) as [? | s]; simpl; [by left; eexists |].
  destruct (fetch svc (token_request cfg c s)) as [? | tokenRes]; simpl;
    [by left; eexists |].
  destruct (r_json tokenRes) as [? | answer]; simpl; [by left; eexists |].
  destruct (prop_of answer "access_token") as [? | tok]; simpl; [by left; eexists |].
  destruct (prop_of answer "error") as [? | error]; simpl; [by left; eexists |].
  destruct (truthy error || negb (truthy tok)); simpl.
  - left. destruct (template _); simpl; by eexists.
  - right. by exists c, s, tok.
Qed.

Lemma auth_callback_total (cfg : config) (svc : services) (req : request) :
  ∃ resp, (run (auth_callback cfg svc req)).1 = inr resp.
Proof.
  destruct (auth_callback_cases cfg svc req)
    as [-> | [[log ->] | (c & s & tok & ->)]]; by eexists.
Qed.

(** The callback sets at most the [github_token] cookie. *)
Lemma auth_callback_cookies (cfg : config) (svc : services) (req : request)
    (resp : response) (k : string) (v : option json) :
  (run (auth_callback cfg svc req)).1 = inr resp →
  (k, v) ∈ set_cookies resp → k = "github_token".
Proof.
  destruct (auth_callback_cases cfg svc req)
    as [-> | [[log ->] | (c & s & tok & ->)]]; simpl; intros [= <-]; simpl.
  - by intros ?%elem_of_nil.
  - by intros ?%elem_of_nil.
  - by intros [= <- <-]%list_elem_of_singleton.
Qed.

Lemma session_after_other (jar : gmap string json) (r : response) (k : string) :
  (∀ k' v, (k', v) ∈ set_cookies r → k' ≠ k) →
  session_after jar r !! k = jar !! k.
Proof.
  unfold session_after. generalize (set_cookies r) as l.
  intros l. revert jar. induction l as [| [k' v] l IH]; intros jar H; [done |].
  simpl. rewrite IH.
  - apply lookup_insert_ne. apply (H k' v). left.
  - intros k'' v' Hin. apply (H k'' v'). by right.
Qed.

Lemma truthy_str (s : string) : s ≠ "" → truthy (Some (JStr s)) = true.
Proof.
  intros H. simpl. apply negb_true_iff, String.eqb_neq, H.
Qed.

(** Once past the state check, the callback's only call is the one to
    the token endpoint, however the exchange ends. *)
Lemma auth_callback_exchange (cfg : config) (svc : services) (req : request)
    (c s : string) :
  query req !! "code" = Some (JStr c) → c ≠ "" →
  query req !! "state" = Some (JStr s) → s ≠ "" →
  cookies req !! "oauth_state" = Some (JStr s) →
  (run (auth_callback cfg svc req)).2 = [Fetch (token_request cfg c s)].
Proof.
  intros Hc Hc' Hs Hs' Hsaved. unfold auth_callback.
  rewrite Hc, Hs, Hsaved, !truthy_str by done.
  unfold strict_eq. rewrite String.eqb_refl. steps.
  destruct (fetch svc (token_request cfg c s)) as [? | tokenRes]; simpl; [done |].
  destruct (r_json tokenRes) as [? | answer]; simpl; [done |].
  destruct (prop_of answer "access_token") as [? | tok]; simpl; [done |].
  destruct (prop_of answer "error") as [? | error]; simpl; [done |].
  destruct (truthy error || negb (truthy tok)); simpl; [| done].
  by destruct (template _).
Qed.

(** C2, as the handler has it.  The callback neither clears nor rewrites
    the [oauth_state] cookie: whatever the outcome, the caller holds the
    same saved state afterwards, and a later callback that carries a code
    and that same state passes the check again and reaches the token
    endpoint. *)
Theorem oauth_state_survives_callback (cfg : config) (svc : services)
    (req next : request) (c s : string) :
  cookies next = session_of (cookies req) (run (auth_callback cfg svc req)) →
  cookies req !! "oauth_state" = Some (JStr s) → s ≠ "" →
  query next !! "state" = Some (JStr s) →
  query next !! "code" = Some (JStr c) → c ≠ "" →
  cookies next !! "oauth_state" = cookies req !! "oauth_state"
  ∧ (run (auth_callback cfg svc next)).2 = [Fetch (token_request cfg c s)]
  ∧ exchanged (run (auth_callback cfg svc next)) = true.
Proof.
  intros Hjar Hsaved Hs Hstate Hcode Hc.
  assert (cookies next !! "oauth_state" = cookies req !! "oauth_state") as Hkept.
  { rewrite Hjar. unfold session_of.
    destruct (auth_callback_total cfg svc req) as [resp Hresp]. rewrite Hresp.
    apply session_after_other. intros k v Hin.
    by rewrite (auth_callback_cookies cfg svc req resp k v Hresp Hin). }
  assert ((run (auth_callback cfg svc next)).2 = [Fetch (token_request cfg c s)])
    as Hlog.
  { apply auth_callback_exchange; try done. by rewrite Hkept. }
  split; [done |]. split; [done |].
  unfold exchanged. by rewrite Hlog.
Qed.

(** The claim of C2 fails on the handler: with the state [k3x9q2m7]
    saved, a first callback is accepted and ends in the 302 that sets the
    token cookie; a second callback with the same state and another code
    is accepted again.  The same holds after a first callback that ended
    in the 500 of a refused exchange. *)
Lemma oauth_state_accepted_twice :
  let jar : gmap string json := {[ "oauth_state" := JStr "k3x9q2m7" ]} in
  let callback code cookies :=
    run (auth_callback Sample.cfg Sample.svc
           (Sample.get {[ "code" := JStr code; "state" := JStr "k3x9q2m7" ]} cookies)) in
  let succeeded := callback "c0de1" jar in
  let failed := callback "expired" jar in
  status_of succeeded = Some 302
  ∧ exchanged (callback "c0de2" (session_of jar succeeded)) = true
  ∧ (callback "c0de2" (session_of jar succeeded)).2
    = [Fetch (token_request Sample.cfg "c0de2" "k3x9q2m7")]
  ∧ status_of failed = Some 500
  ∧ exchanged (callback "c0de2" (session_of jar failed)) = true.
Proof.
  vm_compute. repeat split.
Qed.

Lemma oauth_state_survives_callback_witness :
  let jar : gmap string json := {[ "oauth_state" := JStr "k3x9q2m7" ]} in
  let req := Sample.get {[ "code" := JStr "c0de1"; "state" := JStr "k3x9q2m7" ]} jar in
  let next :=
    Sample.get {[ "code" := JStr "c0de2"; "state" := JStr "k3x9q2m7" ]}
      (session_of jar (run (auth_callback Sample.cfg Sample.svc req))) in
  cookies next !! "oauth_state" = cookies req !! "oauth_state"
  ∧ (run (auth_callback Sample.cfg Sample.svc next)).2
    = [Fetch (token_request Sample.cfg "c0de2" "k3x9q2m7")]
  ∧ exchanged (run (auth_callback Sample.cfg Sample.svc next)) = true.
Proof.
  apply (oauth_state_survives_callback Sample.cfg Sample.svc _ _ "c0de2" "k3x9q2m7");
    done.
Defined.

(** ** The chat proxy *)

(** C6. A chat request with neither a [github_token] cookie nor an
    [X-GitHub-Token] header is answered 401, and the handler makes no
    call: neither the identity endpoint nor the completion endpoint is
    reached. *)
Theorem agent_requires_token (cfg : config) (svc : services) (req : request) :
  cookies req !! "github_token" = None →
  req_get req "X-GitHub-Token" = None →
  run (agent cfg svc req)
  = (inr (send 401 "Unauthorized: missing GitHub token. Please authenticate at /auth/authorization"),
     [])
  ∧ status_of (run (agent cfg svc req)) = Some 401.
Proof.
  intros Hcookie Hheader. unfold agent. rewrite Hcookie, Hheader. done.
Qed.

Lemma agent_requires_token_witness :
  let req := Sample.post ∅ {[ "content-type" := "application/json" ]}
               (JObj {[ "messages" := JArr [] ]}) in
  run (agent Sample.cfg Sample.svc req)
  = (inr (send 401 "Unauthorized: missing GitHub token. Please authenticate at /auth/authorization"),
     [])
  ∧ status_of (run (agent Sample.cfg Sample.svc req)) = Some 401.
Proof.
  apply agent_requires_token; reflexivity.
Defined.

(** C5. With body model ["a"], config model ["b"] and default ["c"] the
    resolved model is ["a"]; with no body model it is ["b"]; with
    neither, whether the config object is absent or lacks a model, it is
    ["c"].  The other settings and the other fields of the config object
    are arbitrary. *)
Theorem model_resolution_priority (id secret fqdn context : string)
    (others : gmap string json) :
  let cfg := {| CLIENT_ID := id; CLIENT_SECRET := secret; FQDN := fqdn;
                CONTEXT := context; DEFAULT_MODEL := "c" |} in
  let config := Some (JObj (<["model" := JStr "b"]> others)) in
  selectedModel cfg (Some (JStr "a")) config = inr (Some (JStr "a"))
  ∧ selectedModel cfg None config = inr (Some (JStr "b"))
  ∧ selectedModel cfg None None = inr (Some (JStr "c"))
  ∧ selectedModel cfg None (Some (JObj (delete "model" others)))
    = inr (Some (JStr "c")).
Proof.
  intros cfg config. unfold selectedModel, config. simpl.
  rewrite lookup_insert_eq, lookup_delete_eq. simpl. done.
Qed.

(** The resolved model is always a string. *)
Lemma selectedModel_string (cfg : config) (bodyModel config v : option json) :
  selectedModel cfg bodyModel config = inr v → ∃ s, v = Some (JStr s).
Proof.
  unfold selectedModel.
  assert (∀ x y, opt_trim x = inr y → truthy y = true → ∃ s, y = Some (JStr s)) as Htrim.
  { intros [[]|] y; simpl; intros [= <-]; try done. by eexists. }
  destruct (opt_trim bodyModel) as [? | a] eqn:Ha; [done |].
  destruct (truthy a) eqn:Ta.
  { intros [= <-]. eauto. }
  destruct (opt_trim (opt_prop config "model")) as [? | b] eqn:Hb; [done |].
  destruct (truthy b) eqn:Tb; intros [= <-]; eauto.
Qed.


(** The priority in general: a body model that is not blank wins; failing
    that, a config model that is not blank; failing both, the default. *)
Lemma selectedModel_body (cfg : config) (a : string) (config : option json) :
  trim a ≠ "" →
  selectedModel cfg (Some (JStr a)) config = inr (Some (JStr (trim a))).
Proof.
  intros Ha. unfold selectedModel. simpl.
  by rewrite (proj2 (String.eqb_neq _ _) Ha).
Qed.

Lemma selectedModel_config (cfg : config) (bodyModel : option json)
    (b : string) (others : gmap string json) :
  bodyModel = None ∨ bodyModel = Some JNull
  ∨ (∃ a, bodyModel = Some (JStr a) ∧ trim a = "") →
  trim b ≠ "" →
  selectedModel cfg bodyModel (Some (JObj (<["model" := JStr b]> others)))
  = inr (Some (JStr (trim b))).
Proof.
  intros Hbody Hb. unfold selectedModel.
  assert (∃ x, opt_trim bodyModel = inr x ∧ truthy x = false) as (x & -> & ->).
  { destruct Hbody as [-> | [-> | (a & -> & Ha)]]; simpl; eexists; split; try done.
    simpl. by rewrite Ha. }
  simpl. rewrite lookup_insert_eq. simpl.
  by rewrite (proj2 (String.eqb_neq _ _) Hb).
Qed.

Lemma selectedModel_default (cfg : config) :
  selectedModel cfg None None = inr (Some (JStr (DEFAULT_MODEL cfg))).
Proof. reflexivity. Qed.

(** The identification block calls the identity endpoint once and
    nothing else. *)
Lemma identify_run (svc : services) (token : option json) (log : list call) :
  identify svc token log
  = (inr match octokit_request svc token "GET /user" with
         | inr data =>
             match prop_of data "login" with
             | inr login =>
                 match template login with
                 | inr _ => Some login
                 | inl _ => None
                 end
             | inl _ => None
             end
         | inl _ => None
         end,
     log ++ [Octokit token "GET /user"]).
Proof.
  unfold identify. steps.
  destruct (octokit_request svc token "GET /user") as [? | data]; simpl; [done |].
  destruct (prop_of data "login") as [? | login]; simpl; [done |].
  by destruct (template login).
Qed.

(** The forwarding block: one call to the completion endpoint when the
    token has a string form, none otherwise. *)
Lemma proxy_run (svc : services) (token : option json) (out : json)
    (log : list call) :
  proxy svc token out log
  = match template token with
    | inr bearer =>
        let rq := completion_request bearer out in
        (inr match fetch svc rq with
             | inr apiRes =>
                 {| status := r_status apiRes; head := relayed_head apiRes;
                    set_cookies := []; sent := Piped (r_body apiRes) |}
             | inl _ => send 500 "Internal server error"
             end,
         log ++ [Fetch rq])
    | inl _ => (inr (send 500 "Internal server error"), log)
    end.
Proof.
  unfold proxy. steps.
  destruct (template token) as [? | bearer]; simpl; [done |].
  by destruct (fetch svc (completion_request bearer out)).
Qed.

(** What the handler has done whenever it called the completion
    endpoint: the token was present, the identity endpoint resolved a
    login, the body was an object whose [messages] is an array, and the
    request sent is the body with [model], [stream] and [messages]
    overridden. *)
Lemma agent_forwarded (cfg : config) (svc : services) (req : request)
    (rq : fetch_request) :
  Fetch rq ∈ (run (agent cfg svc req)).2 →
  let token := js_or (cookies req !! "github_token")
                     (JStr <$> req_get req "X-GitHub-Token") in
  ∃ data handle client msgs model bearer,
    octokit_request svc token "GET /user" = inr data
    ∧ template (get_prop data "login") = inr handle
    ∧ body req = JObj client
    ∧ client !! "messages" = Some (JArr msgs)
    ∧ selectedModel cfg (client !! "model") (client !! "config")
      = inr (Some (JStr model))
    ∧ template token = inr bearer
    ∧ rq = completion_request bearer
             (outbound cfg (body req) handle (Some (JStr model)) msgs)
    ∧ run (agent cfg svc req)
      = (inr match fetch svc rq with
             | inr apiRes =>
                 {| status := r_status apiRes; head := relayed_head apiRes;
                    set_cookies := []; sent := Piped (r_body apiRes) |}
             | inl _ => send 500 "Internal server error"
             end,
         [Octokit token "GET /user"; Fetch rq]).
Proof.
  intros Hin token. revert Hin. unfold agent. fold token.
  destruct (truthy token); simpl; [| by intros ?%elem_of_nil].
  unfold run, bind. rewrite identify_run. simpl.
  destruct (octokit_request svc token "GET /user") as [? | data] eqn:Hdata;
    [by intros [=]%list_elem_of_singleton |].
  destruct (prop_of data "login") as [? | login] eqn:Hlogin;
    [by intros [=]%list_elem_of_singleton |].
  destruct (template login) as [? | handle] eqn:Hhandle;
    [by intros [=]%list_elem_of_singleton |].
  assert (login = get_prop data "login") as -> by (destruct data; by inversion Hlogin).
  unfold lift, ret.
  destruct (body req) as [| | | | | client] eqn:Hbody; simpl;
    try (by intros [=]%list_elem_of_singleton).
  destruct (client !! "messages") as [[| | | | msgs |] |] eqn:Hmsgs;
    try (by intros [=]%list_elem_of_singleton).
  destruct (selectedModel cfg (client !! "model") (client !! "config"))
    as [? | model] eqn:Hmodel; [by intros [=]%list_elem_of_singleton |].
  destruct (selectedModel_string _ _ _ _ Hmodel) as [name ->].
  rewrite Hhandle, proxy_run.
  destruct (template token) as [? | bearer] eqn:Hbearer;
    [by intros [=]%list_elem_of_singleton |].
  simpl. intros Hin.
  assert (rq = completion_request bearer
                 (outbound cfg (JObj client) handle (Some (JStr name)) msgs)) as ->.
  { apply elem_of_cons in Hin as [[=] | Hin].
    apply list_elem_of_singleton in Hin. by inversion Hin. }
  by exists data, handle, client, msgs, name, bearer.
Qed.




(** After [n] chunks have arrived, the caller has been written exactly
    those [n] chunks and the rest is still to come. *)
Lemma pipe_steps_arrived (n : nat) (u w : list string) :
  (n ≤ List.length u)%nat →
  pipe_steps n {| upstream := u; written := w; ended := false |}
  = {| upstream := drop n u; written := w ++ take n u; ended := false |}.
Proof.
  revert u w. induction n as [| n IH]; intros u w Hn; simpl.
  - by rewrite drop_0, take_0, app_nil_r.
  - destruct u as [| c u]; simpl in *; [lia |].
    unfold pipe_step at 1. simpl.
    rewrite IH by lia. by rewrite <- app_assoc.
Qed.

(** When the source ends, the response is ended with every chunk
    written. *)
Lemma pipe_steps_ended (chunks : list string) :
  pipe_steps (S (List.length chunks)) (pipe chunks)
  = {| upstream := []; written := chunks; ended := true |}.
Proof.
  replace (S (List.length chunks)) with (List.length chunks + 1) by lia.
  assert (∀ a b r, pipe_steps (a + b) r = pipe_steps b (pipe_steps a r)) as Hadd.
  { induction a as [| a IH]; intros b r; simpl; [done | apply IH]. }
  rewrite Hadd. unfold pipe. rewrite pipe_steps_arrived by done.
  by rewrite drop_all, firstn_all.
Qed.

Lemma relayed_head_lookup (apiRes : fetch_response) (k : string) :
  relayed_head apiRes !! k
  = match fromEntries (r_headers apiRes) !! k with
    | Some v => Some v
    | None => if decide (k = "Content-Type") then Some "text/event-stream" else None
    end.
Proof.
  unfold relayed_head. rewrite lookup_union.
  destruct (fromEntries (r_headers apiRes) !! k) as [v |]; simpl.
  - by destruct (_ !! k).
  - case_decide as Hk.
    + subst k. by rewrite lookup_singleton_eq.
    + by rewrite lookup_singleton_ne.
Qed.

(** C3, as the handler has it.  When the completion endpoint answers,
    the caller receives the upstream status; the headers given to
    [writeHead] are the upstream headers laid over the default
    [Content-Type: text/event-stream], so every upstream header goes out
    with its value and the only header that can be added is that default,
    under a name the upstream did not use; and the body is relayed chunk
    by chunk: once [n] chunks have arrived the caller has been written
    those [n] chunks, in order and unchanged, before the source has
    ended, and at the end of the source all of them. *)
Theorem relay_fidelity (cfg : config) (svc : services) (req : request)
    (rq : fetch_request) (apiRes : fetch_response) :
  Fetch rq ∈ (run (agent cfg svc req)).2 →
  fetch svc rq = inr apiRes →
  ∃ resp,
    (run (agent cfg svc req)).1 = inr resp
    ∧ status resp = r_status apiRes
    ∧ head resp
      = fromEntries (r_headers apiRes) ∪ {[ "Content-Type" := "text/event-stream" ]}
    ∧ (∀ k v, fromEntries (r_headers apiRes) !! k = Some v → head resp !! k = Some v)
    ∧ (∀ k, fromEntries (r_headers apiRes) !! k = None → k ≠ "Content-Type" →
            head resp !! k = None)
    ∧ (fromEntries (r_headers apiRes) !! "Content-Type" = None →
       head resp !! "Content-Type" = Some "text/event-stream")
    ∧ sent resp = Piped (r_body apiRes)
    ∧ (∀ n, (n ≤ List.length (r_body apiRes))%nat →
            let r := pipe_steps n (pipe (r_body apiRes)) in
            written r = take n (r_body apiRes)
            ∧ upstream r = drop n (r_body apiRes)
            ∧ ended r = false)
    ∧ pipe_steps (S (List.length (r_body apiRes))) (pipe (r_body apiRes))
      = {| upstream := []; written := r_body apiRes; ended := true |}.
Proof.
  intros Hin Hfetch.
  destruct (agent_forwarded cfg svc req rq Hin)
    as (_ & _ & _ & _ & _ & _ & _ & _ & _ & _ & _ & _ & _ & Hrun).
  rewrite Hrun, Hfetch. simpl. eexists. split; [reflexivity |]. simpl.
  repeat split.
  - intros k v Hk. by rewrite relayed_head_lookup, Hk.
  - intros k Hk Hne. rewrite relayed_head_lookup, Hk. by case_decide.
  - intros Hk. by rewrite relayed_head_lookup, Hk.
  - unfold pipe. by rewrite pipe_steps_arrived.
  - unfold pipe. by rewrite pipe_steps_arrived.
  - unfold pipe. by rewrite pipe_steps_arrived.
  - apply pipe_steps_ended.
Qed.

(** The claim of C3 fails on the handler: the upstream answers with the
    single header [x-request-id], and the caller is sent that header and
    a [Content-Type] that the upstream did not send. *)
Lemma relay_adds_content_type :
  let req := Sample.post {[ "github_token" := JStr "gho_16C7e42F292c69" ]} ∅
               (JObj {[ "messages" := JArr [] ]}) in
  let sent_head : gmap string string :=
    {[ "Content-Type" := "text/event-stream"; "x-request-id" := "r1" ]} in
  (run (agent Sample.cfg Sample.svc req)).1
  = inr {| status := 200; head := sent_head; set_cookies := [];
           sent := Piped (r_body Sample.sse) |}
  ∧ fromEntries (r_headers Sample.sse) = {[ "x-request-id" := "r1" ]}
  ∧ fromEntries (r_headers Sample.sse) !! "Content-Type" = None
  ∧ sent_head !! "Content-Type" = Some "text/event-stream"
  ∧ bool_decide (sent_head = fromEntries (r_headers Sample.sse)) = false.
Proof.
  vm_compute. repeat split.
Qed.

Lemma relay_fidelity_witness :
  let req := Sample.post {[ "github_token" := JStr "gho_16C7e42F292c69" ]} ∅
               (JObj {[ "messages" := JArr [] ]}) in
  let rq := completion_request "gho_16C7e42F292c69"
              (outbound Sample.cfg (body req) "octocat" (Some (JStr "gpt-4")) []) in
  Fetch rq ∈ (run (agent Sample.cfg Sample.svc req)).2
  ∧ fetch Sample.svc rq = inr Sample.sse
  ∧ ∃ resp,
      (run (agent Sample.cfg Sample.svc req)).1 = inr resp
      ∧ status resp = 200
      ∧ head resp !! "x-request-id" = Some "r1"
      ∧ written (pipe_steps 1 (pipe (r_body Sample.sse))) = take 1 (r_body Sample.sse).
Proof.
  intros req rq.
  assert (Fetch rq ∈ (run (agent Sample.cfg Sample.svc req)).2) as Hin.
  { vm_compute. repeat constructor. }
  assert (fetch Sample.svc rq = inr Sample.sse) as Hfetch by reflexivity.
  split; [exact Hin |]. split; [exact Hfetch |].
  destruct (relay_fidelity Sample.cfg Sample.svc req rq Sample.sse Hin Hfetch)
    as (resp & Hresp & Hstatus & _ & Hup & _ & _ & _ & Hpipe & _).
  exists resp. split; [exact Hresp |]. split; [exact Hstatus |].
  split; [by apply Hup |].
  apply (Hpipe 1). simpl. lia.
Defined.

(** ** The tool protocol *)

Lemma is_str_false (v : option json) (name : string) :
  v ≠ Some (JStr name) → is_str v name = false.
Proof.
  intros Hne. destruct v as [[| | | s | |] |]; try done.
  unfold is_str, strict_eq. apply String.eqb_neq. congruence.
Qed.

Lemma lookup_with_prop_eq (k : string) (v : option json) (o : gmap string json) :
  with_prop k v o !! k = v.
Proof.
  destruct v; simpl; [apply lookup_insert_eq | apply lookup_delete_eq].
Qed.

Lemma lookup_with_prop_ne (k k' : string) (v : option json) (o : gmap string json) :
  k ≠ k' → with_prop k v o !! k' = o !! k'.
Proof.
  intros Hne. destruct v; simpl;
    [by apply lookup_insert_ne | by apply lookup_delete_ne].
Qed.

(** The fields of a reply [{ jsonrpc: '2.0', id, [k]: v }]. *)
Lemma rpc_fields (id : option json) (k : string) (v : json) :
  k ≠ "jsonrpc" → k ≠ "id" →
  ∃ reply,
    rpc id k v = {| status := 200; head := ∅; set_cookies := []; sent := Json reply |}
    ∧ reply !! "jsonrpc" = Some (JStr "2.0")
    ∧ reply !! "id" = id
    ∧ reply !! k = Some v
    ∧ ∀ k', k' ≠ "jsonrpc" → k' ≠ "id" → k' ≠ k → reply !! k' = None.
Proof.
  intros Hj Hi. eexists. split; [reflexivity |].
  unfold object. simpl. repeat split.
  - rewrite lookup_insert_ne, lookup_with_prop_ne by done. apply lookup_insert_eq.
  - rewrite lookup_insert_ne by done. apply lookup_with_prop_eq.
  - apply lookup_insert_eq.
  - intros k' ? ? ?.
    rewrite lookup_insert_ne, lookup_with_prop_ne, lookup_insert_ne by done.
    apply lookup_empty.
Qed.

Lemma prop_of_inr (v : json) (k : string) (x : option json) :
  prop_of v k = inr x → v ≠ JNull ∧ x = get_prop v k.
Proof.
  destruct v; simpl; intros [= <-]; done.
Qed.

Lemma prop_of_non_null (v : json) (k : string) :
  v ≠ JNull → prop_of v k = inr (get_prop v k).
Proof.
  by destruct v.
Qed.

(** C7. A request whose [method] is none of [initialize],
    [notifications/initialized], [tools/list] and [retrieve], and has a
    string form [name] (as every string has: itself), is answered with
    status 200 and the JSON body made of the version literal, the
    request's [id] as it came, and the error of code -32601 whose message
    names the method.  No call is made. *)
Theorem unknown_method_error (svc : services) (req : request)
    (method : option json) (name : string) :
  prop_of (body req) "method" = inr method →
  template method = inr name →
  method ≠ Some (JStr "initialize") →
  method ≠ Some (JStr "notifications/initialized") →
  method ≠ Some (JStr "tools/list") →
  method ≠ Some (JStr "retrieve") →
  ∃ reply,
    run (query_handler svc req)
    = (inr {| status := 200; head := ∅; set_cookies := []; sent := Json reply |}, [])
    ∧ reply !! "jsonrpc" = Some (JStr "2.0")
    ∧ reply !! "id" = get_prop (body req) "id"
    ∧ reply !! "error"
      = Some (JObj {[ "code" := JNum (-32601);
                      "message" := JStr ("Method not found: " +:+ name) ]})
    ∧ reply !! "result" = None.
Proof.
  intros Hmethod Hname H1 H2 H3 H4.
  apply prop_of_inr in Hmethod as [Hbody ->].
  set (error := JObj (object [("code", Some (JNum (-32601)));
                              ("message", Some (JStr ("Method not found: " +:+ name)))])).
  destruct (rpc_fields (get_prop (body req) "id") "error" error)
    as (reply & Hrpc & Hj & Hi & He & Hrest); [done | done |].
  exists reply. split.
  - unfold query_handler. steps. rewrite !prop_of_non_null by done. simpl.
    rewrite !is_str_false by done. rewrite Hname. simpl.
    fold error. by rewrite Hrpc.
  - repeat split; try done. by apply Hrest.
Qed.

Lemma unknown_method_error_witness :
  let req := Sample.post ∅ ∅
               (JObj {[ "jsonrpc" := JStr "2.0"; "id" := JNum 7;
                        "method" := JStr "foo" ]}) in
  ∃ reply,
    run (query_handler Sample.svc req)
    = (inr {| status := 200; head := ∅; set_cookies := []; sent := Json reply |}, [])
    ∧ reply !! "jsonrpc" = Some (JStr "2.0")
    ∧ reply !! "id" = Some (JNum 7)
    ∧ reply !! "error"
      = Some (JObj {[ "code" := JNum (-32601);
                      "message" := JStr "Method not found: foo" ]})
    ∧ reply !! "result" = None.
Proof.
  intros req.
  refine (unknown_method_error Sample.svc req (Some (JStr "foo")) "foo"
            eq_refl eq_refl _ _ _ _); discriminate.
Defined.

(** A method that is an object with a [toString] property of its own has
    no string form: the handler throws while it builds the message and
    sends nothing. *)
Example unknown_method_without_name :
  run (query_handler Sample.svc
         (Sample.post ∅ ∅ (JObj {[ "id" := JNum 7;
                                   "method" := JObj {[ "toString" := JNum 1 ]} ]})))
  = (inl (TypeError "Cannot convert object to primitive value"), []).
Proof. reflexivity. Qed.







(** ** More on the OAuth gateway *)

Lemma session_after_authorization (cfg : config) (state : string)
    (jar : gmap string json) :
  session_after jar (auth_authorization cfg state) !! "oauth_state"
  = Some (JStr state).
Proof.
  unfold session_after. simpl. apply lookup_insert_eq.
Qed.

(** X1. Login round trip.  After [/auth/authorization] has issued a
    state that is not empty, a callback that echoes that state with a
    code reaches the token endpoint, and what the authorization redirect
    carried as [client_id], [redirect_uri] and [state] is sent to the
    token endpoint with the same values. *)
Theorem authorization_then_callback (cfg : config) (svc : services)
    (jar : gmap string json) (state c : string) (req : request) :
  state ≠ "" → c ≠ "" →
  cookies req = session_after jar (auth_authorization cfg state) →
  query req !! "state" = Some (JStr state) →
  query req !! "code" = Some (JStr c) →
  (run (auth_callback cfg svc req)).2 = [Fetch (token_request cfg c state)]
  ∧ ∃ to fields,
      sent (auth_authorization cfg state) = Redirect to
      ∧ f_body (token_request cfg c state) = Form fields
      ∧ ∀ k v, k ∈ ["client_id"; "redirect_uri"; "state"] →
               (k, v) ∈ search to → (k, v) ∈ fields.
Proof.
  intros Hs Hc Hjar Hstate Hcode. split.
  - apply auth_callback_exchange; try done.
    rewrite Hjar. apply session_after_authorization.
  - eexists _, _. split; [reflexivity |]. split; [reflexivity |].
    intros k v Hk Hin. simpl in Hin.
    repeat (apply elem_of_cons in Hin as [[= -> ->] | Hin]);
      try (by apply elem_of_nil in Hin).
    + left.
    + do 3 right. left.
    + do 4 right. left.
    + exfalso. repeat (apply elem_of_cons in Hk as [[=] | Hk]).
      by apply elem_of_nil in Hk.
Qed.

Lemma authorization_then_callback_witness :
  let req := Sample.get {[ "code" := JStr "c0de1"; "state" := JStr "k3x9q2m7" ]}
               (session_after ∅ (auth_authorization Sample.cfg "k3x9q2m7")) in
  (run (auth_callback Sample.cfg Sample.svc req)).2
  = [Fetch (token_request Sample.cfg "c0de1" "k3x9q2m7")]
  ∧ ∃ to fields,
      sent (auth_authorization Sample.cfg "k3x9q2m7") = Redirect to
      ∧ f_body (token_request Sample.cfg "c0de1" "k3x9q2m7") = Form fields
      ∧ ∀ k v, k ∈ ["client_id"; "redirect_uri"; "state"] →
               (k, v) ∈ search to → (k, v) ∈ fields.
Proof.
  apply (authorization_then_callback Sample.cfg Sample.svc ∅); done.
Defined.

(** X2. Without a saved state, or with an empty one (the string
    [Math.random()] gives when it returns 0), no callback is accepted:
    every request is answered 400 before any call. *)
Theorem callback_needs_saved_state (cfg : config) (svc : services) (req : request) :
  cookies req !! "oauth_state" = None
  ∨ cookies req !! "oauth_state" = Some (JStr "") →
  run (auth_callback cfg svc req)
  = (inr (send 400 "Invalid OAuth state or missing code"), []).
Proof.
  intros Hsaved. unfold auth_callback.
  assert (negb (truthy (query req !! "state"))
          || negb (strict_eq (query req !! "state") (cookies req !! "oauth_state"))
          = true) as Hbad.
  { destruct Hsaved as [-> | ->];
      destruct (query req !! "state") as [[| | | s | |] |]; simpl;
      rewrite ?orb_true_r; try done; by destruct (String.eqb s ""). }
  rewrite <- orb_assoc, Hbad, orb_true_r. done.
Qed.

Lemma callback_needs_saved_state_witness :
  run (auth_callback Sample.cfg Sample.svc
         (Sample.get {[ "code" := JStr "c0de1"; "state" := JStr "k3x9q2m7" ]} ∅))
  = (inr (send 400 "Invalid OAuth state or missing code"), []).
Proof.
  apply callback_needs_saved_state. left. reflexivity.
Defined.

(** X3. When the request passes the state check and the provider's
    answer carries an access token and no error, the callback answers 302
    to the service root after its one call to the token endpoint and sets
    the [github_token] cookie to that access token. *)
Theorem callback_grants_token (cfg : config) (svc : services) (req : request)
    (c s : string) (tokenRes : fetch_response) (answer : json) (tok : json) :
  truthy (query req !! "code") = true →
  truthy (query req !! "state") = true →
  strict_eq (query req !! "state") (cookies req !! "oauth_state") = true →
  template (query req !! "code") = inr c →
  template (query req !! "state") = inr s →
  fetch svc (token_request cfg c s) = inr tokenRes →
  r_json tokenRes = inr answer →
  get_prop answer "access_token" = Some tok →
  truthy (Some tok) = true →
  truthy (get_prop answer "error") = false →
  run (auth_callback cfg svc req)
  = (inr {| status := 302; head := ∅;
            set_cookies := [("github_token", Some tok)];
            sent := Redirect {| base := "/"; search := [] |} |},
     [Fetch (token_request cfg c s)])
  ∧ session_of (cookies req) (run (auth_callback cfg svc req)) !! "github_token"
    = Some (readback (Some tok)).
Proof.
  intros Hc Hs He Tc Ts Hf Hj Htok Ttok Herr.
  assert (answer ≠ JNull) as Hnn by (intros ->; done).
  assert (run (auth_callback cfg svc req)
          = (inr {| status := 302; head := ∅;
                    set_cookies := [("github_token", Some tok)];
                    sent := Redirect {| base := "/"; search := [] |} |},
             [Fetch (token_request cfg c s)])) as Hrun.
  { unfold auth_callback. rewrite Hc, Hs, He. steps.
    rewrite Tc, Ts, Hf, Hj. rewrite !prop_of_non_null by done.
    rewrite Htok, Herr, Ttok. done. }
  rewrite Hrun. split; [done |].
  unfold session_of, session_after. simpl. apply lookup_insert_eq.
Qed.

Lemma callback_grants_token_witness :
  let req := Sample.get {[ "code" := JStr "c0de1"; "state" := JStr "k3x9q2m7" ]}
                        {[ "oauth_state" := JStr "k3x9q2m7" ]} in
  run (auth_callback Sample.cfg Sample.svc req)
  = (inr {| status := 302; head := ∅;
            set_cookies := [("github_token", Some (JStr "gho_16C7e42F292c69"))];
            sent := Redirect {| base := "/"; search := [] |} |},
     [Fetch (token_request Sample.cfg "c0de1" "k3x9q2m7")])
  ∧ session_of (cookies req) (run (auth_callback Sample.cfg Sample.svc req))
    !! "github_token"
    = Some (readback (Some (JStr "gho_16C7e42F292c69"))).
Proof.
  apply (callback_grants_token Sample.cfg Sample.svc _ "c0de1" "k3x9q2m7"
           Sample.granted
           (JObj {[ "access_token" := JStr "gho_16C7e42F292c69";
                    "token_type" := JStr "bearer" ]}));
    reflexivity.
Defined.

(** X4. No token cookie without a grant.  Whenever the callback's
    response sets a cookie, it is [github_token], the response is the 302,
    the state in the request matched the saved one, and the value is the
    access token of a provider answer that was parsed and carried no
    error. *)
Theorem token_cookie_only_when_granted (cfg : config) (svc : services)
    (req : request) (resp : response) (k : string) (v : option json) :
  (run (auth_callback cfg svc req)).1 = inr resp →
  (k, v) ∈ set_cookies resp →
  k = "github_token"
  ∧ status resp = 302
  ∧ truthy v = true
  ∧ truthy (query req !! "code") = true
  ∧ strict_eq (query req !! "state") (cookies req !! "oauth_state") = true
  ∧ ∃ c s tokenRes answer,
      template (query req !! "code") = inr c
      ∧ template (query req !! "state") = inr s
      ∧ fetch svc (token_request cfg c s) = inr tokenRes
      ∧ r_json tokenRes = inr answer
      ∧ get_prop answer "access_token" = v
      ∧ truthy (get_prop answer "error") = false.
Proof.
  unfold auth_callback.
  destruct (truthy (query req !! "code")) eqn:Hc; simpl;
    [| by intros [= <-] ?%elem_of_nil].
  destruct (truthy (query req !! "state")) eqn:Hs; simpl;
    [| by intros [= <-] ?%elem_of_nil].
  destruct (strict_eq (query req !! "state") (cookies req !! "oauth_state")) eqn:He;
    simpl; [| by intros [= <-] ?%elem_of_nil].
  steps.
  destruct (template (query req !! "code")) as [? | c] eqn:Tc; simpl;
    [by intros [= <-] ?%elem_of_nil |].
  destruct (template (query req !! "state")) as [? | s] eqn:Ts; simpl;
    [by intros [= <-] ?%elem_of_nil |].
  destruct (fetch svc (token_request cfg c s)) as [? | tokenRes] eqn:Hf; simpl;
    [by intros [= <-] ?%elem_of_nil |].
  destruct (r_json tokenRes) as [? | answer] eqn:Hj; simpl;
    [by intros [= <-] ?%elem_of_nil |].
  destruct (prop_of answer "access_token") as [? | tok] eqn:Htok; simpl;
    [by intros [= <-] ?%elem_of_nil |].
  destruct (prop_of answer "error") as [? | error] eqn:Herr; simpl;
    [by intros [= <-] ?%elem_of_nil |].
  apply prop_of_inr in Htok as [_ ->]. apply prop_of_inr in Herr as [_ ->].
  destruct (truthy (get_prop answer "error")) eqn:Terr; simpl.
  { destruct (template (js_or _ _)); simpl; by intros [= <-] ?%elem_of_nil. }
  destruct (truthy (get_prop answer "access_token")) eqn:Ttok; simpl.
  2: { destruct (template (js_or _ _)); simpl; by intros [= <-] ?%elem_of_nil. }
  intros [= <-]. simpl. intros [= -> ->]%list_elem_of_singleton.
  repeat split; try done. by exists c, s, tokenRes, answer.
Qed.

Lemma token_cookie_only_when_granted_witness :
  let req := Sample.get {[ "code" := JStr "c0de1"; "state" := JStr "k3x9q2m7" ]}
                        {[ "oauth_state" := JStr "k3x9q2m7" ]} in
  strict_eq (query req !! "state") (cookies req !! "oauth_state") = true
  ∧ ∃ c s tokenRes answer,
      template (query req !! "code") = inr c
      ∧ template (query req !! "state") = inr s
      ∧ fetch Sample.svc (token_request Sample.cfg c s) = inr tokenRes
      ∧ r_json tokenRes = inr answer
      ∧ get_prop answer "access_token" = Some (JStr "gho_16C7e42F292c69")
      ∧ truthy (get_prop answer "error") = false.
Proof.
  intros req.
  destruct (token_cookie_only_when_granted Sample.cfg Sample.svc req
              {| status := 302; head := ∅;
                 set_cookies := [("github_token", Some (JStr "gho_16C7e42F292c69"))];
                 sent := Redirect {| base := "/"; search := [] |} |}
              "github_token" (Some (JStr "gho_16C7e42F292c69")))
    as (_ & _ & _ & _ & He & Hex); [reflexivity | left |].
  split; [exact He | exact Hex].
Defined.

(** X5. When the request passes the state check and the token endpoint
    cannot be reached, or its answer is not JSON, the callback answers
    500 after that one call and sets no cookie. *)
Theorem callback_transport_failure (cfg : config) (svc : services) (req : request)
    (c s : string) (e : exn) :
  truthy (query req !! "code") = true →
  truthy (query req !! "state") = true →
  strict_eq (query req !! "state") (cookies req !! "oauth_state") = true →
  template (query req !! "code") = inr c →
  template (query req !! "state") = inr s →
  fetch svc (token_request cfg c s) = inl e
  ∨ (∃ tokenRes, fetch svc (token_request cfg c s) = inr tokenRes
                 ∧ r_json tokenRes = inl e) →
  run (auth_callback cfg svc req)
  = (inr (send 500 "Authentication failed"), [Fetch (token_request cfg c s)])
  ∧ session_of (cookies req) (run (auth_callback cfg svc req)) = cookies req.
Proof.
  intros Hc Hs He Tc Ts Hfail.
  assert (run (auth_callback cfg svc req)
          = (inr (send 500 "Authentication failed"),
             [Fetch (token_request cfg c s)])) as Hrun.
  { unfold auth_callback. rewrite Hc, Hs, He. steps. rewrite Tc, Ts.
    destruct Hfail as [-> | (tokenRes & -> & ->)]; done. }
  by rewrite Hrun.
Qed.

Lemma callback_transport_failure_witness :
  let svc := {| fetch rq := inl (Rejected "ECONNREFUSED");
                octokit_request := octokit_request Sample.svc;
                retrieveFromYourIndex := retrieveFromYourIndex Sample.svc |} in
  let req := Sample.get {[ "code" := JStr "c0de1"; "state" := JStr "k3x9q2m7" ]}
                        {[ "oauth_state" := JStr "k3x9q2m7" ]} in
  run (auth_callback Sample.cfg svc req)
  = (inr (send 500 "Authentication failed"),
     [Fetch (token_request Sample.cfg "c0de1" "k3x9q2m7")])
  ∧ session_of (cookies req) (run (auth_callback Sample.cfg svc req)) = cookies req.
Proof.
  intros svc req.
  apply (callback_transport_failure Sample.cfg svc req "c0de1" "k3x9q2m7"
           (Rejected "ECONNREFUSED")); try reflexivity.
  left. reflexivity.
Defined.

(** X6. The callback always answers and never throws: its status is
    400, 500 or 302; it makes no call or exactly one, a POST of a form to
    the provider's token URL that carries the configured client id and
    secret; and only the 302 sets a cookie. *)
Theorem callback_always_answers (cfg : config) (svc : services) (req : request) :
  ∃ resp log,
    run (auth_callback cfg svc req) = (inr resp, log)
    ∧ (status resp = 400 ∨ status resp = 500 ∨ status resp = 302)
    ∧ (status resp = 400 → log = [])
    ∧ (status resp = 302 → ∃ tok, set_cookies resp = [("github_token", tok)])
    ∧ (status resp ≠ 302 → set_cookies resp = [])
    ∧ (log = []
       ∨ ∃ c s, log = [Fetch (token_request cfg c s)]
                ∧ f_url (token_request cfg c s)
                  = "https://github.com/login/oauth/access_token"
                ∧ f_method (token_request cfg c s) = "POST"
                ∧ ∃ fields, f_body (token_request cfg c s) = Form fields
                            ∧ ("client_id", CLIENT_ID cfg) ∈ fields
                            ∧ ("client_secret", CLIENT_SECRET cfg) ∈ fields).
Proof.
  assert (∀ c s, ∃ fields, f_body (token_request cfg c s) = Form fields
                           ∧ ("client_id", CLIENT_ID cfg) ∈ fields
                           ∧ ("client_secret", CLIENT_SECRET cfg) ∈ fields) as Hform.
  { intros c s. eexists. split; [reflexivity |]. split; [left | right; left]. }
  unfold auth_callback.
  destruct (negb _ || negb _ || negb _).
  { eexists _, _. split; [reflexivity |]. simpl. repeat split; auto; done. }
  steps.
  destruct (template (query req !! "code")) as [? | c]; simpl.
  { eexists _, _. split; [reflexivity |]. simpl. repeat split; auto; done. }
  destruct (template (query req !! "state")) as [? | s]; simpl.
  { eexists _, _. split; [reflexivity |]. simpl. repeat split; auto; done. }
  assert (∀ resp, (status resp = 500 ∧ set_cookies resp = [])
                  ∨ (status resp = 302 ∧ ∃ tok, set_cookies resp = [("github_token", tok)]) →
          ∃ resp' log,
            (inr resp, [Fetch (token_request cfg c s)])
            = (inr resp' : exn + response, log)
            ∧ (status resp' = 400 ∨ status resp' = 500 ∨ status resp' = 302)
            ∧ (status resp' = 400 → log = [])
            ∧ (status resp' = 302 → ∃ tok, set_cookies resp' = [("github_token", tok)])
            ∧ (status resp' ≠ 302 → set_cookies resp' = [])
            ∧ (log = []
               ∨ ∃ c' s', log = [Fetch (token_request cfg c' s')]
                  ∧ f_url (token_request cfg c' s')
                    = "https://github.com/login/oauth/access_token"
                  ∧ f_method (token_request cfg c' s') = "POST"
                  ∧ ∃ fields, f_body (token_request cfg c' s') = Form fields
                              ∧ ("client_id", CLIENT_ID cfg) ∈ fields
                              ∧ ("client_secret", CLIENT_SECRET cfg) ∈ fields)) as Hcall.
  { intros resp Hresp. exists resp, [Fetch (token_request cfg c s)].
    split; [done |].
    assert (∃ c' s', [Fetch (token_request cfg c s)] = [Fetch (token_request cfg c' s')]
              ∧ f_url (token_request cfg c' s')
                = "https://github.com/login/oauth/access_token"
              ∧ f_method (token_request cfg c' s') = "POST"
              ∧ ∃ fields, f_body (token_request cfg c' s') = Form fields
                          ∧ ("client_id", CLIENT_ID cfg) ∈ fields
                          ∧ ("client_secret", CLIENT_SECRET cfg) ∈ fields) as Hlog.
    { exists c, s. repeat split. apply Hform. }
    destruct Hresp as [[H5 Hck] | [H3 Hck]].
    - rewrite H5. split; [auto |]. split; [done |]. split; [done |].
      split; [done |]. by right.
    - rewrite H3. split; [auto |]. split; [done |]. split; [done |].
      split; [done |]. by right. }
  destruct (fetch svc (token_request cfg c s)) as [? | tokenRes]; simpl;
    [apply Hcall; by left |].
  destruct (r_json tokenRes) as [? | answer]; simpl; [apply Hcall; by left |].
  destruct (prop_of answer "access_token") as [? | tok]; simpl;
    [apply Hcall; by left |].
  destruct (prop_of answer "error") as [? | error]; simpl; [apply Hcall; by left |].
  destruct (truthy error || negb (truthy tok)); simpl.
  - destruct (template (js_or _ _)); simpl; apply Hcall; by left.
  - apply Hcall. right. split; [done |]. by eexists.
Qed.

(** ** More on the chat proxy *)

(** X7. A token cookie that is not empty wins over the header: the
    handler then behaves the same whatever headers the request has. *)
Theorem cookie_token_wins (cfg : config) (svc : services) (req : request)
    (h : gmap string string) :
  truthy (cookies req !! "github_token") = true →
  run (agent cfg svc (with_headers h req)) = run (agent cfg svc req).
Proof.
  intros Hcookie. unfold agent, js_or. simpl. by rewrite Hcookie.
Qed.

Lemma cookie_token_wins_witness :
  let req := Sample.post {[ "github_token" := JStr "gho_16C7e42F292c69" ]} ∅
               (JObj {[ "messages" := JArr [] ]}) in
  run (agent Sample.cfg Sample.svc
         (with_headers {[ "x-github-token" := "gho_other" ]} req))
  = run (agent Sample.cfg Sample.svc req).
Proof.
  apply cookie_token_wins. reflexivity.
Defined.

(** X8. Without a token cookie, or with an empty one, the
    [X-GitHub-Token] header is the token: the handler behaves as if the
    header's value had come in the cookie. *)
Theorem header_token_fallback (cfg : config) (svc : services) (req : request)
    (t : string) :
  truthy (cookies req !! "github_token") = false →
  req_get req "X-GitHub-Token" = Some t →
  run (agent cfg svc req)
  = run (agent cfg svc (with_cookies (<["github_token" := JStr t]> (cookies req)) req)).
Proof.
  intros Hcookie Hheader. unfold agent, js_or. simpl.
  assert (req_get (with_cookies (<["github_token" := JStr t]> (cookies req)) req)
            "X-GitHub-Token" = Some t) as -> by done.
  rewrite Hcookie, Hheader, lookup_insert_eq. simpl.
  destruct (String.eqb t "") eqn:Ht; simpl; rewrite ?Ht; reflexivity.
Qed.

Lemma header_token_fallback_witness :
  let req := Sample.post ∅ {[ "x-github-token" := "gho_16C7e42F292c69" ]}
               (JObj {[ "messages" := JArr [] ]}) in
  run (agent Sample.cfg Sample.svc req)
  = run (agent Sample.cfg Sample.svc
           (with_cookies (<["github_token" := JStr "gho_16C7e42F292c69"]> (cookies req))
              req)).
Proof.
  apply header_token_fallback; reflexivity.
Defined.

(** X9. When the identity endpoint refuses the token, or answers with
    no data or with a login that cannot be printed, the handler answers
    401 after that one call: the completion endpoint is not called. *)
Theorem invalid_token_unauthorized (cfg : config) (svc : services) (req : request) :
  let token := js_or (cookies req !! "github_token")
                     (JStr <$> req_get req "X-GitHub-Token") in
  truthy token = true →
  (∃ e, octokit_request svc token "GET /user" = inl e)
  ∨ octokit_request svc token "GET /user" = inr JNull
  ∨ (∃ data e, octokit_request svc token "GET /user" = inr data
               ∧ template (get_prop data "login") = inl e) →
  run (agent cfg svc req)
  = (inr (send 401 "Invalid GitHub token"), [Octokit token "GET /user"]).
Proof.
  intros token Htoken Hfail. unfold agent. fold token. rewrite Htoken. simpl.
  unfold run, bind. rewrite identify_run. simpl.
  destruct Hfail as [[e ->] | [-> | (data & e & -> & Hlogin)]]; try done.
  destruct data; try done; simpl in *; by rewrite Hlogin.
Qed.

Lemma invalid_token_unauthorized_witness :
  let svc := {| fetch := fetch Sample.svc;
                octokit_request auth route := inl (Rejected "Bad credentials");
                retrieveFromYourIndex := retrieveFromYourIndex Sample.svc |} in
  let req := Sample.post {[ "github_token" := JStr "gho_revoked" ]} ∅
               (JObj {[ "messages" := JArr [] ]}) in
  run (agent Sample.cfg svc req)
  = (inr (send 401 "Invalid GitHub token"),
     [Octokit (Some (JStr "gho_revoked")) "GET /user"]).
Proof.
  intros svc req.
  apply (invalid_token_unauthorized Sample.cfg svc req); [reflexivity |].
  left. by eexists.
Defined.

Lemma identify_ok (svc : services) (token : option json) (data : json)
    (handle : string) (log : list call) :
  octokit_request svc token "GET /user" = inr data →
  data ≠ JNull →
  template (get_prop data "login") = inr handle →
  identify svc token log
  = (inr (Some (get_prop data "login")), log ++ [Octokit token "GET /user"]).
Proof.
  intros Hdata Hnn Hhandle.
  by rewrite identify_run, Hdata, prop_of_non_null, Hhandle.
Qed.

(** X10. A body whose [messages] is not an array (absent, a string, an
    object, ...) is answered 400 once the token has been identified: the
    identity endpoint has been called, the completion endpoint is not. *)
Theorem messages_not_array_rejected (cfg : config) (svc : services) (req : request)
    (data : json) (handle : string) :
  let token := js_or (cookies req !! "github_token")
                     (JStr <$> req_get req "X-GitHub-Token") in
  truthy token = true →
  octokit_request svc token "GET /user" = inr data →
  data ≠ JNull →
  template (get_prop data "login") = inr handle →
  body req ≠ JNull →
  (∀ msgs, get_prop (body req) "messages" ≠ Some (JArr msgs)) →
  run (agent cfg svc req)
  = (inr (send 400 "Invalid payload: messages array missing"),
     [Octokit token "GET /user"]).
Proof.
  intros token Htoken Hdata Hnn Hhandle Hbody Hmsgs.
  unfold agent. fold token. rewrite Htoken. simpl.
  unfold run, bind. rewrite (identify_ok svc token data handle) by done.
  unfold lift. rewrite !prop_of_non_null by done. simpl.
  destruct (get_prop (body req) "messages") as [[| | | | msgs |] |]; try done.
  by destruct (Hmsgs msgs).
Qed.

Lemma messages_not_array_rejected_witness :
  let req := Sample.post {[ "github_token" := JStr "gho_16C7e42F292c69" ]} ∅
               (JObj {[ "messages" := JStr "hello"; "model" := JStr "gpt-4o" ]}) in
  run (agent Sample.cfg Sample.svc req)
  = (inr (send 400 "Invalid payload: messages array missing"),
     [Octokit (Some (JStr "gho_16C7e42F292c69")) "GET /user"]).
Proof.
  intros req.
  apply (messages_not_array_rejected Sample.cfg Sample.svc req
           (JObj {[ "login" := JStr "octocat" ]}) "octocat");
    try reflexivity; discriminate.
Defined.

(** X11. A [model] that is present and is neither a string nor [null]
    (a number, a boolean, an array, an object) makes the handler throw on
    [bodyModel?.trim()] after the identity call: no response is sent and
    the completion endpoint is not called. *)
Theorem model_not_string_throws (cfg : config) (svc : services) (req : request)
    (data : json) (handle : string) (msgs : list json) (model : json) :
  let token := js_or (cookies req !! "github_token")
                     (JStr <$> req_get req "X-GitHub-Token") in
  truthy token = true →
  octokit_request svc token "GET /user" = inr data →
  data ≠ JNull →
  template (get_prop data "login") = inr handle →
  get_prop (body req) "messages" = Some (JArr msgs) →
  get_prop (body req) "model" = Some model →
  model ≠ JNull →
  (∀ s, model ≠ JStr s) →
  run (agent cfg svc req)
  = (inl (TypeError "trim is not a function"), [Octokit token "GET /user"])
  ∧ status_of (run (agent cfg svc req)) = None.
Proof.
  intros token Htoken Hdata Hnn Hhandle Hmsgs Hmodel Hnull Hstr.
  assert (body req ≠ JNull) as Hbody by (intros Hb; by rewrite Hb in Hmsgs).
  assert (run (agent cfg svc req)
          = (inl (TypeError "trim is not a function"),
             [Octokit token "GET /user"])) as Hrun.
  { unfold agent. fold token. rewrite Htoken. simpl.
    unfold run, bind. rewrite (identify_ok svc token data handle) by done.
    unfold lift. rewrite !prop_of_non_null by done. simpl.
    rewrite Hmsgs, Hmodel. unfold selectedModel.
    destruct model; try done. by destruct (Hstr s). }
  by rewrite Hrun.
Qed.

Lemma model_not_string_throws_witness :
  let req := Sample.post {[ "github_token" := JStr "gho_16C7e42F292c69" ]} ∅
               (JObj {[ "messages" := JArr []; "model" := JNum 4 ]}) in
  run (agent Sample.cfg Sample.svc req)
  = (inl (TypeError "trim is not a function"),
     [Octokit (Some (JStr "gho_16C7e42F292c69")) "GET /user"])
  ∧ status_of (run (agent Sample.cfg Sample.svc req)) = None.
Proof.
  intros req.
  apply (model_not_string_throws Sample.cfg Sample.svc req
           (JObj {[ "login" := JStr "octocat" ]}) "octocat" [] (JNum 4));
    try reflexivity; discriminate.
Defined.

(** X12. When the completion endpoint cannot be reached the handler
    answers 500 and sets no cookie; the identity endpoint and the
    completion endpoint have each been called once. *)
Theorem upstream_unreachable (cfg : config) (svc : services) (req : request)
    (rq : fetch_request) (e : exn) :
  Fetch rq ∈ (run (agent cfg svc req)).2 →
  fetch svc rq = inl e →
  run (agent cfg svc req)
  = (inr (send 500 "Internal server error"),
     [Octokit (js_or (cookies req !! "github_token")
                     (JStr <$> req_get req "X-GitHub-Token")) "GET /user";
      Fetch rq]).
Proof.
  intros Hin Hfetch.
  destruct (agent_forwarded cfg svc req rq Hin)
    as (_ & _ & _ & _ & _ & _ & _ & _ & _ & _ & _ & _ & _ & Hrun).
  by rewrite Hrun, Hfetch.
Qed.

Lemma upstream_unreachable_witness :
  let svc := {| fetch rq := inl (Rejected "ECONNRESET");
                octokit_request := octokit_request Sample.svc;
                retrieveFromYourIndex := retrieveFromYourIndex Sample.svc |} in
  let req := Sample.post {[ "github_token" := JStr "gho_16C7e42F292c69" ]} ∅
               (JObj {[ "messages" := JArr [] ]}) in
  let rq := completion_request "gho_16C7e42F292c69"
              (outbound Sample.cfg (body req) "octocat" (Some (JStr "gpt-4")) []) in
  run (agent Sample.cfg svc req)
  = (inr (send 500 "Internal server error"),
     [Octokit (Some (JStr "gho_16C7e42F292c69")) "GET /user"; Fetch rq]).
Proof.
  intros svc req rq.
  apply (upstream_unreachable Sample.cfg svc req rq (Rejected "ECONNRESET"));
    [| reflexivity].
  vm_compute. repeat constructor.
Defined.











(** ** The start of the process *)


(** X18. The default model is used as the environment gives it: it is
    [gpt-4] only when [DEFAULT_MODEL] is not set, and a value that is set,
    be it empty or padded with blanks, is what a request that names no
    model resolves to, neither replaced nor trimmed. *)
Theorem default_model_verbatim (env : gmap string string)
    (readFile : string -> option string) (cfg : config) :
  startup env readFile = Some cfg →
  selectedModel cfg None None
  = inr (Some (JStr match env !! "DEFAULT_MODEL" with
                    | Some d => d
                    | None => "gpt-4"
                    end)).
Proof.
  unfold startup.
  destruct (env !! "CLIENT_ID"), (env !! "CLIENT_SECRET"), (env !! "FQDN"); try done.
  destruct (_ || _ || _); [done |]. intros [= <-]. simpl.
  by destruct (env !! "DEFAULT_MODEL").
Qed.

Lemma default_model_verbatim_witness :
  let env : gmap string string :=
    {[ "CLIENT_ID" := "Iv1.0123456789abcdef"; "CLIENT_SECRET" := "s3cr3t";
       "FQDN" := "https://agent.example.com"; "DEFAULT_MODEL" := "" ]} in
  ∃ cfg, startup env (fun _ => None) = Some cfg
         ∧ selectedModel cfg None None = inr (Some (JStr "")).
Proof.
  intros env. eexists. split; [reflexivity |].
  exact (default_model_verbatim env (fun _ => None) _ eq_refl).
Defined.



(** ** More on the tool protocol *)

(** X20. Every answer of the tool-protocol handler is either the 204
    without a body, given to [notifications/initialized], or a 200 whose
    JSON body carries the version literal, the request's [id] as it came,
    and exactly one of [result] and [error]; it sets no cookie and no
    header. *)
Theorem reply_shape (svc : services) (req : request) (resp : response)
    (log : list call) :
  run (query_handler svc req) = (inr resp, log) →
  set_cookies resp = [] ∧ head resp = ∅
  ∧ ((status resp = 204 ∧ sent resp = Empty
      ∧ get_prop (body req) "method" = Some (JStr "notifications/initialized"))
     ∨ (status resp = 200
        ∧ ∃ reply, sent resp = Json reply
                   ∧ reply !! "jsonrpc" = Some (JStr "2.0")
                   ∧ reply !! "id" = get_prop (body req) "id"
                   ∧ ((is_Some (reply !! "result") ∧ reply !! "error" = None)
                      ∨ (is_Some (reply !! "error") ∧ reply !! "result" = None)))).
Proof.
  assert (∀ id k v,
            (k = "result" ∨ k = "error") →
            id = get_prop (body req) "id" →
            ∀ resp', rpc id k v = resp' →
            set_cookies resp' = [] ∧ head resp' = ∅
            ∧ ((status resp' = 204 ∧ sent resp' = Empty
                ∧ get_prop (body req) "method" = Some (JStr "notifications/initialized"))
               ∨ (status resp' = 200
                  ∧ ∃ reply, sent resp' = Json reply
                     ∧ reply !! "jsonrpc" = Some (JStr "2.0")
                     ∧ reply !! "id" = get_prop (body req) "id"
                     ∧ ((is_Some (reply !! "result") ∧ reply !! "error" = None)
                        ∨ (is_Some (reply !! "error") ∧ reply !! "result" = None)))))
    as Hrpc.
  { intros id k v Hk -> resp' <-.
    destruct (rpc_fields (get_prop (body req) "id") k v)
      as (reply & -> & Hj & Hi & Hv & Hrest);
      [by destruct Hk as [-> | ->] | by destruct Hk as [-> | ->] |].
    simpl. split; [done |]. split; [done |]. right. split; [done |].
    exists reply. split; [done |]. split; [done |]. split; [done |].
    destruct Hk as [-> | ->]; [left | right];
      (split; [by rewrite Hv | by apply Hrest]). }
  unfold query_handler. steps.
  destruct (prop_of (body req) "jsonrpc") as [? | jsonrpc] eqn:H1; simpl; [done |].
  apply prop_of_inr in H1 as [Hbody _].
  rewrite !prop_of_non_null by done. simpl.
  destruct (is_str (get_prop (body req) "method") "initialize").
  { intros [= <- <-]. eapply (Hrpc _ "result"); [by left | done | done]. }
  destruct (is_str (get_prop (body req) "method") "notifications/initialized") eqn:Hn.
  { intros [= <- <-]. simpl. split; [done |]. split; [done |]. left.
    split; [done |]. split; [done |].
    destruct (get_prop (body req) "method") as [[| | | s | |] |]; try done.
    by apply String.eqb_eq in Hn as ->. }
  destruct (is_str (get_prop (body req) "method") "tools/list").
  { intros [= <- <-]. eapply (Hrpc _ "result"); [by left | done | done]. }
  destruct (is_str (get_prop (body req) "method") "retrieve").
  { destruct (member (get_prop (body req) "params") "query") as [? | q]; simpl;
      [done |].
    destruct (retrieveFromYourIndex svc q) as [? | docs]; simpl; [done |].
    destruct (documents docs) as [? | mapped]; simpl; [done |].
    intros [= <- <-]. eapply (Hrpc _ "result"); [by left | done | done]. }
  destruct (template (get_prop (body req) "method")) as [? | name]; simpl; [done |].
  intros [= <- <-]. eapply (Hrpc _ "error"); [by right | done | done].
Qed.

Lemma reply_shape_witness :
  let req := Sample.post ∅ ∅
               (JObj {[ "jsonrpc" := JStr "2.0"; "id" := JStr "req-1";
                        "method" := JStr "tools/list" ]}) in
  run (query_handler Sample.svc req)
  = (inr (rpc (Some (JStr "req-1")) "result" tools_list_result), [])
  ∧ ∃ reply, sent (rpc (Some (JStr "req-1")) "result" tools_list_result) = Json reply
             ∧ reply !! "id" = Some (JStr "req-1")
             ∧ reply !! "error" = None.
Proof.
  intros req.
  assert (run (query_handler Sample.svc req)
          = (inr (rpc (Some (JStr "req-1")) "result" tools_list_result), []))
    as Hrun by reflexivity.
  split; [exact Hrun |].
  destruct (reply_shape Sample.svc req _ _ Hrun)
    as (_ & _ & [(H204 & _) | (_ & reply & Hsent & _ & Hid & Hone)]);
    [discriminate |].
  exists reply. split; [exact Hsent |]. split; [exact Hid |].
  destruct Hone as [[_ He] | [_ Hr]]; [exact He |].
  injection Hsent as <-. discriminate.
Defined.

(** X21. The three handshake methods read nothing but [method] and
    [id]: two requests with the same handshake method and the same [id]
    get the same answer, whatever their [params], their other fields and
    the services behind the handler, and no call is made.  For
    [notifications/initialized] the answer is the 204 without a body,
    even when the request has an [id]. *)
Theorem handshake_reads_method_and_id (svc svc' : services) (req req' : request)
    (m : string) :
  m ∈ ["initialize"; "notifications/initialized"; "tools/list"] →
  get_prop (body req) "method" = Some (JStr m) →
  get_prop (body req') "method" = Some (JStr m) →
  get_prop (body req) "id" = get_prop (body req') "id" →
  run (query_handler svc req) = run (query_handler svc' req')
  ∧ (run (query_handler svc req)).2 = []
  ∧ (m = "notifications/initialized" →
     run (query_handler svc req)
     = (inr {| status := 204; head := ∅; set_cookies := []; sent := Empty |}, [])).
Proof.
  intros Hm Hmethod Hmethod' Hid.
  assert (body req ≠ JNull) as Hbody by (intros Hb; by rewrite Hb in Hmethod).
  assert (body req' ≠ JNull) as Hbody' by (intros Hb; by rewrite Hb in Hmethod').
  unfold query_handler. steps. rewrite !prop_of_non_null by done. simpl.
  rewrite Hmethod, Hmethod', Hid.
  repeat (apply elem_of_cons in Hm as [-> | Hm]); try (by apply elem_of_nil in Hm);
    by repeat split.
Qed.

Lemma handshake_reads_method_and_id_witness :
  let req := Sample.post ∅ ∅
               (JObj {[ "jsonrpc" := JStr "2.0"; "id" := JNum 1;
                        "method" := JStr "notifications/initialized";
                        "params" := JObj {[ "ready" := JBool true ]} ]}) in
  let req' := Sample.post ∅ ∅
                (JObj {[ "id" := JNum 1;
                         "method" := JStr "notifications/initialized" ]}) in
  run (query_handler Sample.svc req) = run (query_handler Sample.svc req')
  ∧ run (query_handler Sample.svc req)
    = (inr {| status := 204; head := ∅; set_cookies := []; sent := Empty |}, []).
Proof.
  intros req req'.
  destruct (handshake_reads_method_and_id Sample.svc Sample.svc req req'
              "notifications/initialized")
    as (Hsame & _ & H204);
    [right; left | reflexivity | reflexivity | reflexivity |].
  split; [exact Hsame | apply H204; reflexivity].
Defined.

(** X22. The retrieval backend is called for [retrieve] only, once, and
    with [params.query] as it came: whenever the handler has called it,
    the method was [retrieve], [params] was present and not [null], the
    argument was its [query], and that was the only call. *)
Theorem backend_only_for_retrieve (svc : services) (req : request)
    (q : option json) :
  Retrieve q ∈ (run (query_handler svc req)).2 →
  get_prop (body req) "method" = Some (JStr "retrieve")
  ∧ (∃ params, get_prop (body req) "params" = Some params
               ∧ params ≠ JNull
               ∧ q = get_prop params "query")
  ∧ (run (query_handler svc req)).2 = [Retrieve q].
Proof.
  unfold query_handler. steps.
  destruct (prop_of (body req) "jsonrpc") as [? | jsonrpc] eqn:H1; simpl;
    [by intros ?%elem_of_nil |].
  apply prop_of_inr in H1 as [Hbody _].
  rewrite !prop_of_non_null by done. simpl.
  destruct (is_str _ "initialize"); [by intros ?%elem_of_nil |].
  destruct (is_str _ "notifications/initialized"); [by intros ?%elem_of_nil |].
  destruct (is_str _ "tools/list"); [by intros ?%elem_of_nil |].
  destruct (is_str (get_prop (body req) "method") "retrieve") eqn:Hr.
  2: { destruct (template _); simpl; by intros ?%elem_of_nil. }
  assert (get_prop (body req) "method" = Some (JStr "retrieve")) as Hmethod.
  { destruct (get_prop (body req) "method") as [[| | | s | |] |]; try done.
    by apply String.eqb_eq in Hr as ->. }
  destruct (member (get_prop (body req) "params") "query") as [? | q'] eqn:Hq;
    simpl; [by intros ?%elem_of_nil |].
  assert (∃ params, get_prop (body req) "params" = Some params
                    ∧ params ≠ JNull ∧ q' = get_prop params "query") as Hparams.
  { destruct (get_prop (body req) "params") as [params |]; [| done].
    exists params. by destruct params; simplify_eq/=. }
  assert (Retrieve q ∈ [Retrieve q'] →
          get_prop (body req) "method" = Some (JStr "retrieve")
          ∧ (∃ params, get_prop (body req) "params" = Some params
                       ∧ params ≠ JNull ∧ q = get_prop params "query")
          ∧ [Retrieve q'] = [Retrieve q]) as Hend.
  { by intros [= ->]%list_elem_of_singleton. }
  destruct (retrieveFromYourIndex svc q') as [? | docs]; simpl; [apply Hend |].
  destruct (documents docs); simpl; apply Hend.
Qed.

Lemma backend_only_for_retrieve_witness :
  let req := Sample.post ∅ ∅
               (JObj {[ "id" := JNum 9; "method" := JStr "retrieve";
                        "params" := JObj {[ "query" := JStr "latency" ]} ]}) in
  get_prop (body req) "method" = Some (JStr "retrieve")
  ∧ (∃ params, get_prop (body req) "params" = Some params
               ∧ params ≠ JNull
               ∧ Some (JStr "latency") = get_prop params "query")
  ∧ (run (query_handler Sample.svc req)).2 = [Retrieve (Some (JStr "latency"))].
Proof.
  intros req. apply backend_only_for_retrieve. vm_compute. repeat constructor.
Defined.

(** X23. A [retrieve] whose backend call fails, or answers with
    something that is not an array, or with an array that holds a [null],
    ends in a throw after the one backend call: no response, and so no
    JSON-RPC error, is sent. *)
Theorem retrieve_failure_throws (svc : services) (req : request)
    (q : option json) (e : exn) :
  get_prop (body req) "method" = Some (JStr "retrieve") →
  member (get_prop (body req) "params") "query" = inr q →
  retrieveFromYourIndex svc q = inl e
  ∨ (∃ docs, retrieveFromYourIndex svc q = inr docs ∧ documents docs = inl e) →
  run (query_handler svc req) = (inl e, [Retrieve q])
  ∧ status_of (run (query_handler svc req)) = None.
Proof.
  intros Hmethod Hq Hfail.
  assert (body req ≠ JNull) as Hbody by (intros Hb; by rewrite Hb in Hmethod).
  assert (run (query_handler svc req) = (inl e, [Retrieve q])) as Hrun.
  { unfold query_handler. steps. rewrite !prop_of_non_null by done. simpl.
    rewrite Hmethod, Hq. simpl.
    destruct Hfail as [-> | (docs & -> & Hdocs)]; simpl; [done |].
    by rewrite Hdocs. }
  by rewrite Hrun.
Qed.

Lemma retrieve_failure_throws_witness :
  let svc := {| fetch := fetch Sample.svc;
                octokit_request := octokit_request Sample.svc;
                retrieveFromYourIndex q :=
                  inr (JObj {[ "hits" := JArr [] ]}) |} in
  let req := Sample.post ∅ ∅
               (JObj {[ "id" := JNum 9; "method" := JStr "retrieve";
                        "params" := JObj {[ "query" := JStr "latency" ]} ]}) in
  run (query_handler svc req)
  = (inl (TypeError "docs.map is not a function"),
     [Retrieve (Some (JStr "latency"))])
  ∧ status_of (run (query_handler svc req)) = None.
Proof.
  intros svc req.
  apply (retrieve_failure_throws svc req); [reflexivity | reflexivity |].
  right. eexists. split; reflexivity.
Defined.



(** X25. The defaults of a document apply to what is missing or [null]
    only: an [id], [cursor] or [metadata] that the item supplies is kept
    as it is, also when it is falsy (0, the empty string, [false]); a
    missing or [null] one becomes the item's position in decimal, or the
    empty object for [metadata]. *)
Theorem document_defaults (i : nat) (d : json) (k : string) :
  d ≠ JNull →
  k ∈ ["id"; "cursor"; "metadata"] →
  ∃ doc,
    document i d = inr (JObj doc)
    ∧ (∀ v, get_prop d k = Some v → v ≠ JNull → doc !! k = Some v)
    ∧ (get_prop d k = None ∨ get_prop d k = Some JNull →
       doc !! k = Some (if String.eqb k "metadata" then JObj ∅ else JStr (pretty i))).
Proof.
  intros Hnn Hk.
  assert (document i d
          = inr (JObj (object
              [("id", Some (nullish (get_prop d "id") (JStr (pretty i))));
               ("cursor", Some (nullish (get_prop d "cursor") (JStr (pretty i))));
               ("text", get_prop d "text");
               ("metadata", Some (nullish (get_prop d "metadata") (JObj ∅)))])))
    as -> by (by destruct d).
  eexists. split; [reflexivity |]. unfold object. simpl.
  assert (∀ v dflt, get_prop d k = Some v → v ≠ JNull →
                    nullish (get_prop d k) dflt = v) as Hkeep.
  { intros v dflt -> Hv. by destruct v. }
  assert (∀ dflt, get_prop d k = None ∨ get_prop d k = Some JNull →
                  nullish (get_prop d k) dflt = dflt) as Hdflt.
  { by intros dflt [-> | ->]. }
  repeat (apply elem_of_cons in Hk as [-> | Hk]); try (by apply elem_of_nil in Hk).
  - split.
    + intros v Hv Hne.
      by rewrite lookup_insert_ne, lookup_with_prop_ne, lookup_insert_ne,
        lookup_insert_eq, (Hkeep v).
    + intros Hmiss.
      by rewrite lookup_insert_ne, lookup_with_prop_ne, lookup_insert_ne,
        lookup_insert_eq, Hdflt.
  - split.
    + intros v Hv Hne.
      by rewrite lookup_insert_ne, lookup_with_prop_ne, lookup_insert_eq, (Hkeep v).
    + intros Hmiss.
      by rewrite lookup_insert_ne, lookup_with_prop_ne, lookup_insert_eq, Hdflt.
  - split.
    + intros v Hv Hne. by rewrite lookup_insert_eq, (Hkeep v).
    + intros Hmiss. by rewrite lookup_insert_eq, Hdflt.
Qed.

Lemma document_defaults_witness :
  ∃ doc,
    document 12 (JObj {[ "id" := JNum 0; "cursor" := JNull ]}) = inr (JObj doc)
    ∧ doc !! "id" = Some (JNum 0)
    ∧ doc !! "cursor" = Some (JStr "12").
Proof.
  destruct (document_defaults 12 (JObj {[ "id" := JNum 0; "cursor" := JNull ]}) "id")
    as (doc & Hdoc & Hkeep & _); [discriminate | left |].
  destruct (document_defaults 12 (JObj {[ "id" := JNum 0; "cursor" := JNull ]})
              "cursor")
    as (doc' & Hdoc' & _ & Hdflt); [discriminate | right; left |].
  exists doc. split; [exact Hdoc |]. split.
  - by apply Hkeep.
  - rewrite Hdoc in Hdoc'. injection Hdoc' as <-. apply Hdflt. by right.
Defined.

(** ** The first version of the proxy *)

(** What [index.js] has done whenever it called the completion endpoint,
    and how it ends from there. *)
Lemma index_forwarded (ctx : string) (svc : services) (req : request)
    (rq : fetch_request) :
  Fetch rq ∈ (run (Index.handler ctx svc req)).2 →
  ∃ t data handle msgs,
    req_get req "X-GitHub-Token" = Some t
    ∧ octokit_request svc (Some (JStr t)) "GET /user" = inr data
    ∧ template (get_prop data "login") = inr handle
    ∧ get_prop (body req) "messages" = Some (JArr msgs)
    ∧ rq = completion_request t (Index.outbound ctx handle msgs)
    ∧ run (Index.handler ctx svc req)
      = (match fetch svc rq with
         | inr apiRes =>
             inr {| status := r_status apiRes; head := relayed_head apiRes;
                    set_cookies := []; sent := Piped (r_body apiRes) |}
         | inl e => inl e
         end,
         [Octokit (Some (JStr t)) "GET /user"; Fetch rq]).
Proof.
  unfold Index.handler.
  destruct (req_get req "X-GitHub-Token") as [t |] eqn:Ht; simpl;
    [| by intros ?%elem_of_nil].
  destruct (negb (negb (String.eqb t ""))); [by intros ?%elem_of_nil |].
  unfold run, bind. rewrite identify_run. simpl.
  destruct (octokit_request svc (Some (JStr t)) "GET /user") as [? | data] eqn:Hdata;
    [by intros [=]%list_elem_of_singleton |].
  destruct (prop_of data "login") as [? | login] eqn:Hlogin;
    [by intros [=]%list_elem_of_singleton |].
  destruct (template login) as [? | handle] eqn:Hhandle;
    [by intros [=]%list_elem_of_singleton |].
  apply prop_of_inr in Hlogin as [_ ->].
  unfold lift, ret, await. rewrite Hhandle.
  destruct (body req) as [| | | | | client] eqn:Hbody; simpl;
    try (by intros [=]%list_elem_of_singleton).
  destruct (client !! "messages") as [[| | | | msgs |] |] eqn:Hmsgs;
    try (by intros [=]%list_elem_of_singleton).
  destruct (fetch svc (completion_request t (Index.outbound ctx handle msgs)))
    as [e | apiRes] eqn:Hfetch; simpl; intros Hin;
    (assert (rq = completion_request t (Index.outbound ctx handle msgs)) as ->;
     [apply elem_of_cons in Hin as [[=] | Hin];
      apply list_elem_of_singleton in Hin; by inversion Hin |]);
    exists t, data, handle, msgs; rewrite Hfetch; by repeat split.
Qed.

(** X26. [index.js] builds the outbound request from scratch: it holds
    [stream: true] and the three system entries followed by the client's
    messages, and nothing else, so that every other field of the client's
    body, [model] included, is dropped. *)
Theorem index_forwards_messages_only (ctx : string) (svc : services)
    (req : request) (rq : fetch_request) :
  Fetch rq ∈ (run (Index.handler ctx svc req)).2 →
  ∃ out handle msgs,
    f_body rq = Stringified (JObj out)
    ∧ get_prop (body req) "messages" = Some (JArr msgs)
    ∧ out !! "messages" = Some (JArr (Index.systemPrompts ctx handle ++ msgs))
    ∧ List.length (Index.systemPrompts ctx handle) = 3
    ∧ out !! "stream" = Some (JBool true)
    ∧ ∀ k, k ≠ "messages" → k ≠ "stream" → out !! k = None.
Proof.
  intros Hin.
  destruct (index_forwarded ctx svc req rq Hin)
    as (t & data & handle & msgs & _ & _ & _ & Hmsgs & -> & _).
  eexists _, handle, msgs. split; [reflexivity |]. split; [done |].
  unfold object. simpl. split; [apply lookup_insert_eq |]. split; [done |].
  split; [by rewrite lookup_insert_ne, lookup_insert_eq |].
  intros k ? ?. by rewrite !lookup_insert_ne, lookup_empty.
Qed.

Lemma index_forwards_messages_only_witness :
  let req := Sample.post ∅ {[ "x-github-token" := "gho_16C7e42F292c69" ]}
               (JObj {[ "messages" := JArr [JStr "hi"];
                        "model" := JStr "gpt-4o"; "temperature" := JNum 1 ]}) in
  let rq := completion_request "gho_16C7e42F292c69"
              (Index.outbound "Project Hermes" "octocat" [JStr "hi"]) in
  Fetch rq ∈ (run (Index.handler "Project Hermes" Sample.svc req)).2
  ∧ ∃ out, f_body rq = Stringified (JObj out)
           ∧ out !! "model" = None
           ∧ out !! "temperature" = None
           ∧ out !! "stream" = Some (JBool true).
Proof.
  intros req rq.
  assert (Fetch rq ∈ (run (Index.handler "Project Hermes" Sample.svc req)).2) as Hin.
  { vm_compute. repeat constructor. }
  split; [exact Hin |].
  destruct (index_forwards_messages_only "Project Hermes" Sample.svc req rq Hin)
    as (out & _ & _ & Hout & _ & _ & _ & Hstream & Hrest).
  exists out. split; [exact Hout |].
  split; [by apply Hrest |]. split; [by apply Hrest | exact Hstream].
Defined.

(** X27. [index.js] never reads the cookies: with any other cookies the
    handler behaves the same; in particular a [github_token] cookie does
    not stand in for a missing header. *)
Theorem index_ignores_cookies (ctx : string) (svc : services) (req : request)
    (c : gmap string json) :
  run (Index.handler ctx svc (with_cookies c req))
  = run (Index.handler ctx svc req)
  ∧ (req_get req "X-GitHub-Token" = None →
     run (Index.handler ctx svc (with_cookies c req))
     = (inr (send 401 "Missing GitHub token header"), [])).
Proof.
  split; [reflexivity |].
  intros Hheader. unfold Index.handler.
  assert (req_get (with_cookies c req) "X-GitHub-Token" = None) as -> by done.
  done.
Qed.

(** X28. In [index.js] the call to the completion endpoint stands
    outside any [try]: when the endpoint cannot be reached the handler
    throws after the call and sends no response, where the later version
    answers 500. *)
Theorem index_upstream_unreachable_throws (ctx : string) (svc : services)
    (req : request) (rq : fetch_request) (e : exn) :
  Fetch rq ∈ (run (Index.handler ctx svc req)).2 →
  fetch svc rq = inl e →
  (run (Index.handler ctx svc req)).1 = inl e
  ∧ status_of (run (Index.handler ctx svc req)) = None.
Proof.
  intros Hin Hfetch.
  destruct (index_forwarded ctx svc req rq Hin)
    as (t & data & handle & msgs & _ & _ & _ & _ & _ & Hrun).
  by rewrite Hrun, Hfetch.
Qed.

Lemma index_upstream_unreachable_throws_witness :
  let svc := {| fetch rq := inl (Rejected "ECONNRESET");
                octokit_request := octokit_request Sample.svc;
                retrieveFromYourIndex := retrieveFromYourIndex Sample.svc |} in
  let req := Sample.post ∅ {[ "x-github-token" := "gho_16C7e42F292c69" ]}
               (JObj {[ "messages" := JArr [] ]}) in
  (run (Index.handler "Project Hermes" svc req)).1 = inl (Rejected "ECONNRESET")
  ∧ status_of (run (Index.handler "Project Hermes" svc req)) = None.
Proof.
  intros svc req.
  apply (index_upstream_unreachable_throws "Project Hermes" svc req
           (completion_request "gho_16C7e42F292c69"
              (Index.outbound "Project Hermes" "octocat" [])));
    [| reflexivity].
  vm_compute. repeat constructor.
Defined.
